(** * format_automl_new.py: AutoML datasets to TFRecord sequence examples

    A shallow embedding of [src/utils/automl_format/format_automl_new.py].

    - Python integers are [Z]; array extents are [nat].
    - numpy [float64] entries are modelled by exact rationals [Q]
      (no rounding, no NaN or infinity among the data; the NaN that
      [np.median] returns on an empty array is [None]).
    - A numpy array is its shape together with its row-major buffer.
    - The [float] fields of a record hold 32-bit floats: a number is
      rounded to the nearest one when it is stored.
    - Exceptions are values of [exn]; a computation that may raise
      returns a [result].
    - File-system effects are recorded as a trace of [io_event]s in
      program order. *)

From Stdlib Require Import ZArith QArith Qround Qabs List String Ascii Lia Lqa.
From Stdlib Require Import DecimalString.
From Stdlib Require Import Permutation Sorted.
From stdpp Require Import base list strings gmap.

Set Default Proof Using "Type".

(** ** Exceptions and results *)

(** [ValueError] and [NotImplementedError] carry the message built by the
    source. [LibError] stands for an exception raised inside numpy, scipy
    or protobuf; its argument names the library call. *)
Inductive exn : Type :=
| ValueError (msg : string)
| NotImplementedError (msg : string)
| AssertionError
| LibError (origin : string).

Inductive result (A : Type) : Type :=
| Ok (a : A)
| Raise (e : exn).
Arguments Ok {A} a.
Arguments Raise {A} e.

Global Instance result_ret : MRet result := fun _ a => Ok a.
Global Instance result_bind : MBind result := fun _ _ f r =>
  match r with
  | Ok a => f a
  | Raise e => Raise e
  end.
Global Instance result_fmap : FMap result := fun _ _ f r =>
  match r with
  | Ok a => Ok (f a)
  | Raise e => Raise e
  end.

(** ** Python built-ins *)

(** [str(n)] for an integer. *)
Definition str (n : Z) : string := NilZero.string_of_int (Z.to_int n).

(** [str(x)] for a value that is an integer or [None]. *)
Definition str_opt (x : option Z) : string :=
  match x with
  | Some n => str n
  | None => "None"
  end.

(** Truth value of an optional integer: [None] and [0] are falsy. *)
Definition truthy (x : option Z) : bool :=
  match x with
  | Some n => negb (n =? 0)%Z
  | None => false
  end.

(** [s.replace(old, new)]: every non-overlapping occurrence, scanning from
    the left. [skip] counts the characters of an occurrence that was just
    replaced and that the scan still has to pass over. *)
Fixpoint replace_from (old new : string) (skip : nat) (s : string) : string :=
  match s with
  | EmptyString =>
      match old with
      | EmptyString => new
      | _ => EmptyString
      end
  | String c s' =>
      match skip with
      | S k => replace_from old new k s'
      | O =>
          if String.prefix old s
          then new +:+ replace_from old new (String.length old - 1) s'
          else String c (replace_from old new 0 s')
      end
  end.

Definition replace (s old new : string) : string := replace_from old new 0 s.

(** ** numpy *)

Module np.

Record ndarray : Type := mk { shape : list nat; data : list Q }.

Definition prod (dims : list nat) : nat := foldr Nat.mul 1 dims.

(** [a.size], [a.ndim]; a well-formed array has [size] entries. *)
Definition size (a : ndarray) : nat := prod (shape a).
Definition ndim (a : ndarray) : nat := length (shape a).

(** The one-dimensional array of the entries [l], and the two-dimensional
    array with the given rows, each of width [ncols]. *)
Definition vector (l : list Q) : ndarray := mk [length l] l.
Definition matrix (ncols : nat) (rows : list (list Q)) : ndarray :=
  mk [length rows; ncols] (concat rows).

(** The first [n] consecutive blocks of [m] entries. *)
Fixpoint chunks {A : Type} (n m : nat) (l : list A) : list (list A) :=
  match n with
  | O => []
  | S n' => take m l :: chunks n' m (drop m l)
  end.

(** Iteration over the first axis ([for row in a]). A 0-d array is not
    iterable. *)
Definition iter (a : ndarray) : result (list ndarray) :=
  match shape a with
  | [] => Raise (LibError "iteration over a 0-d array")
  | n :: rest => Ok (mk rest <$> chunks n (prod rest) (data a))
  end.

(** [a.shape[i]]. *)
Definition shape_at (a : ndarray) (i : nat) : result nat :=
  match shape a !! i with
  | Some d => Ok d
  | None => Raise (LibError "tuple index out of range")
  end.

(** Booleans promoted to numbers: [True] is 1 and [False] is 0. *)
Definition of_bool (b : bool) : Q := if b then 1%Q else 0%Q.

(** [1 - a], entrywise. *)
Definition rsub1 (a : ndarray) : ndarray :=
  mk (shape a) ((fun x => 1 - x)%Q <$> data a).

(** [x > t] for a threshold that may be NaN: a comparison with NaN is
    false. *)
Definition gt (x : Q) (t : option Q) : bool :=
  match t with
  | Some t => negb (Qle_bool x t)
  | None => false
  end.

(** [a > t], entrywise; the boolean entries are kept as 0 and 1. *)
Definition greater (a : ndarray) (t : option Q) : ndarray :=
  mk (shape a) ((fun x => of_bool (gt x t)) <$> data a).

Fixpoint insert_sorted (x : Q) (l : list Q) : list Q :=
  match l with
  | [] => [x]
  | y :: l' => if Qle_bool x y then x :: l else y :: insert_sorted x l'
  end.

Definition sort (l : list Q) : list Q := foldr insert_sorted [] l.

(** [np.median(a)] of the flattened array: the middle entry of the
    sorted entries when their number is odd, the mean of the two middle
    entries when it is even, NaN when there is none. *)
Definition median (a : ndarray) : option Q :=
  let s := sort (data a) in
  let n := length s in
  match n with
  | O => None
  | _ =>
      if Nat.even n
      then Some ((nth (n / 2 - 1) s 0 + nth (n / 2) s 0) / 2)%Q
      else Some (nth (n / 2) s 0%Q)
  end.

(** For each index along the first axis in turn, the next [m] entries of
    every buffer. *)
Fixpoint interleave (n m : nat) (buffers : list (list Q)) : list Q :=
  match n with
  | O => []
  | S n' => (buffers ≫= take m) ++ interleave n' m (drop m <$> buffers)
  end.

(** [np.stack(arrays, axis=1)]: the arrays must have one common shape
    [n :: rest]; the result has shape [n :: k :: rest]. *)
Definition stack_axis1 (arrays : list ndarray) : result ndarray :=
  match arrays with
  | [] => Raise (LibError "numpy.stack: need at least one array")
  | a :: _ =>
      if forallb (fun b => bool_decide (shape b = shape a)) arrays
      then
        match shape a with
        | [] => Raise (LibError "numpy.stack: axis 1 is out of bounds")
        | n :: rest =>
            Ok (mk (n :: length arrays :: rest)
                  (interleave n (prod rest) (data <$> arrays)))
        end
      else Raise (LibError "numpy.stack: input arrays of different shapes")
  end.

(** [np.concatenate([a, b])] along the first axis. *)
Definition concatenate (a b : ndarray) : result ndarray :=
  match shape a, shape b with
  | n :: rest, n' :: rest' =>
      if bool_decide (rest = rest')
      then Ok (mk ((n + n') :: rest) (data a ++ data b))
      else Raise (LibError "numpy.concatenate: dimensions must match")
  | _, _ => Raise (LibError "numpy.concatenate: zero-dimensional arrays")
  end.

(** [np.reshape(a, (k, -1))]. *)
Definition reshape_rows (a : ndarray) (k : Z) : result ndarray :=
  if bool_decide (0 < k)%Z && bool_decide ((Z.of_nat (size a) mod k)%Z = 0%Z)
  then Ok (mk [Z.to_nat k; size a / Z.to_nat k] (data a))
  else Raise (LibError "numpy.reshape: cannot reshape").

End np.

(** ** Label normalisation *)

Definition binary_to_multilabel (binary_label : np.ndarray)
  : result np.ndarray :=
  np.stack_axis1 [np.rsub1 binary_label; binary_label].

(** [get_threshold] is left at its default, [np.median]. *)
Definition regression_to_multilabel (regression_label : np.ndarray)
  : result np.ndarray :=
  let threshold := np.median regression_label in
  let binary_label := np.greater regression_label threshold in
  binary_to_multilabel binary_label.


(** ** scipy.sparse *)

Module sp.

(** One row of a CSR matrix: the column positions of the stored entries
    and their values. *)
Record csr_row : Type := mk_row { indices : list Z; data : list Q }.

(** A CSR matrix of shape [(length rows, ncols)]. *)
Record csr_matrix : Type := mk { ncols : nat; rows : list csr_row }.

Definition shape (m : csr_matrix) : list nat := [length (rows m); ncols m].

(** [m.size] of a sparse matrix is its number of stored entries. *)
Definition size (m : csr_matrix) : nat :=
  sum_list ((fun r => length (data r)) <$> rows m).

(** [scipy.sparse.vstack([a, b])] of two CSR matrices, which is a CSR
    matrix. *)
Definition vstack (a b : csr_matrix) : result csr_matrix :=
  if bool_decide (ncols a = ncols b)
  then Ok (mk (ncols a) (rows a ++ rows b))
  else Raise (LibError "scipy.sparse.vstack: incompatible dimensions").

(** A matrix in coordinate format: its shape and the stored entries, each
    with its row and its column. *)
Record coo_matrix : Type := mk_coo {
  coo_nrows : nat;
  coo_ncols : nat;
  coo_entries : list (Z * Z * Q)
}.

(** [m.tocoo()]: the stored entries, row by row. *)
Definition tocoo (m : csr_matrix) : coo_matrix :=
  mk_coo (length (rows m)) (ncols m)
    (concat (imap (fun i r =>
                     zip_with (fun j v => (Z.of_nat i, j, v))
                       (indices r) (data r))
               (rows m))).

(** The entries other than 0 of a dense matrix of [width] columns whose
    entries are [values], with their positions. *)
Definition nonzero_entries (width : nat) (values : list Q)
  : list (Z * Z * Q) :=
  omap (fun '(i, v) =>
          if Qeq_bool v 0 then None
          else Some (Z.of_nat (i / width), Z.of_nat (i mod width), v))
    (imap (fun i v => (i, v)) values).

(** [coo_matrix(a)] of a dense array, which is taken as a matrix
    ([np.atleast_2d]) and may not have more than two dimensions. *)
Definition coo_of_dense (a : np.ndarray) : result coo_matrix :=
  match np.shape a with
  | [] => Ok (mk_coo 1 1 (nonzero_entries 1 (np.data a)))
  | [k] => Ok (mk_coo 1 k (nonzero_entries k (np.data a)))
  | [n; k] => Ok (mk_coo n k (nonzero_entries k (np.data a)))
  | _ =>
      Raise (LibError "scipy.sparse.coo_matrix: expected dimension <= 2")
  end.

(** [scipy.sparse.vstack([a, b])] of blocks that are not both CSR
    matrices: [bmat] turns each block into coordinate format and returns
    a matrix in that format. The width of a block is compared with the
    width of the blocks before it unless that is 0. *)
Definition vstack_coo (a b : coo_matrix) : result coo_matrix :=
  if bool_decide (coo_ncols a = 0) || bool_decide (coo_ncols a = coo_ncols b)
  then Ok (mk_coo (coo_nrows a + coo_nrows b) (coo_ncols b)
             (coo_entries a
              ++ ((fun '(i, j, v) => ((i + Z.of_nat (coo_nrows a))%Z, j, v))
                    <$> coo_entries b)))
  else Raise (LibError "scipy.sparse.vstack: incompatible dimensions").

End sp.

(** ** The dataset handed over by the data manager *)

(** A feature matrix is a dense numpy array or a sparse CSR matrix, as the
    data manager loads it, or the sparse matrix in coordinate format that
    stacking a sparse and a dense matrix gives. *)
Inductive features : Type :=
| Dense (a : np.ndarray)
| Sparse (m : sp.csr_matrix)
| SparseCoo (m : sp.coo_matrix).


Definition features_shape_at (f : features) (i : nat) : result nat :=
  match f with
  | Dense a => np.shape_at a i
  | Sparse m =>
      match sp.shape m !! i with
      | Some d => Ok d
      | None => Raise (LibError "tuple index out of range")
      end
  | SparseCoo m =>
      match [sp.coo_nrows m; sp.coo_ncols m] !! i with
      | Some d => Ok d
      | None => Raise (LibError "tuple index out of range")
      end
  end.

(** [obj.size]: the number of entries of a dense matrix, the number of
    stored entries of a sparse one. *)
Definition features_size (f : features) : nat :=
  match f with
  | Dense a => np.size a
  | Sparse m => sp.size m
  | SparseCoo m => length (sp.coo_entries m)
  end.

(** [D.info], with the keys the program reads. *)
Record Info : Type := mk_info {
  format : string;
  task : string;
  name : string;
  test_num : Z
}.

(** [D.data]. *)
Record Data : Type := mk_data {
  X_train : features;
  X_valid : features;
  X_test : features;
  Y_train : np.ndarray;
  Y_valid : np.ndarray;
  Y_test : np.ndarray
}.

Record DataManager : Type := mk_D { info : Info; data : Data }.

(** The shape flags of the command line; an absent flag is [None]. *)
Record Flags : Type := mk_flags {
  FLAGS_sequence_size : option Z;
  FLAGS_row_count : option Z;
  FLAGS_col_count : option Z;
  FLAGS_num_channels : option Z
}.

(** ** Metadata *)

Record AutoMLMetadata : Type := mk_metadata {
  dataset_name : string;
  sample_count : Z;
  output_dim : Z;
  set_type : string;
  col_count : Z;
  row_count : Z;
  sequence_size : Z;
  num_channels : Z
}.

(** [AutoMLMetadata.__init__] with its assertion on [set_type]. *)
Definition AutoMLMetadata_init (dataset_name : string) (sample_count : Z)
    (set_type : string) (output_dim sequence_size row_count col_count
    num_channels : Z) : result AutoMLMetadata :=
  if bool_decide (set_type = "train") || bool_decide (set_type = "test")
  then Ok (mk_metadata dataset_name sample_count output_dim set_type
             col_count row_count sequence_size num_channels)
  else Raise AssertionError.

Definition nl : string := String "010"%char "".

(** [str((sequence_size, row_count, col_count, num_channels))]. *)
Definition str_shape (s r c ch : option Z) : string :=
  "(" +:+ str_opt s +:+ ", " +:+ str_opt r +:+ ", " +:+ str_opt c +:+ ", "
  +:+ str_opt ch +:+ ")".

Definition missing_shape_message (s r c ch : option Z) : string :=
  "Some shape info is not specified: " +:+
  "(sequence_size, row_count, col_count, num_channels) = " +:+
  str_shape s r c ch +:+
  ". Please add all these metadata as arguments.".

Definition incompatible_shape_message (s r c ch : option Z)
    (num_entries num_features : Z) : string :=
  "Incompatible metadata with data shape! " +:+
  "The shape specified in metadata is" +:+ nl +:+
  "(sequence_size, row_count, col_count, num_channels) = " +:+
  str_shape s r c ch +:+
  nl +:+ "with " +:+ str num_entries +:+ " entries " +:+
  "but got num_features = " +:+ str num_features +:+ " " +:+
  "!= " +:+ str num_entries +:+ " !" +:+ nl +:+
  "Please specify good metadata in the command arguments.".

(** A block of [scipy.sparse.vstack] in coordinate format. *)
Definition as_coo (f : features) : result sp.coo_matrix :=
  match f with
  | Dense a => sp.coo_of_dense a
  | Sparse m => Ok (sp.tocoo m)
  | SparseCoo m => Ok m
  end.

(** The [concat] chosen from [is_sparse(X_train)], applied to
    [[X_train, X_valid]]: [np.concatenate] for a dense [X_train], which
    refuses a sparse [X_valid], and [scipy.sparse.vstack] for a sparse
    one, which takes a dense [X_valid] as a block too and then returns a
    matrix in coordinate format. *)
Definition concat_features (X_train X_valid : features) : result features :=
  match X_train, X_valid with
  | Dense a, Dense b => Dense <$> np.concatenate a b
  | Dense _, _ => Raise (LibError "numpy.concatenate: sparse block")
  | Sparse a, Sparse b => Sparse <$> sp.vstack a b
  | _, _ =>
      a ← as_coo X_train;
      b ← as_coo X_valid;
      SparseCoo <$> sp.vstack_coo a b
  end.

(** The features and labels of a split (source lines 152 to 173). *)
Definition split_features_and_labels (D : DataManager) (set_type : string)
  : result (features * np.ndarray) :=
  if bool_decide (set_type = "train") then
    if bool_decide (features_size (X_valid (data D)) ≠ 0) then
      features ← concat_features (X_train (data D)) (X_valid (data D));
      labels ← np.concatenate (Y_train (data D)) (Y_valid (data D));
      mret (features, labels)
    else mret (X_train (data D), Y_train (data D))
  else if bool_decide (set_type = "test") then
    mret (X_test (data D), Y_test (data D))
  else Raise (ValueError "Wrong set type, should be `train` or `test`!").

(** Regression and binary labels become multilabel (lines 175 to 178). *)
Definition normalize_labels (task : string) (labels : np.ndarray)
  : result np.ndarray :=
  if bool_decide (task = "regression") then regression_to_multilabel labels
  else if bool_decide (task = "binary.classification")
  then binary_to_multilabel labels
  else mret labels.

(** The example shape: the default when no component is given
    (lines 180 to 185). *)
Definition resolve_shape (features : features)
    (sequence_size row_count col_count num_channels : option Z)
  : result (option Z * option Z * option Z * option Z) :=
  match sequence_size, row_count, col_count, num_channels with
  | None, None, None, None =>
      width ← features_shape_at features 1;
      mret (Some 1%Z, Some 1%Z, Some (Z.of_nat width), Some 1%Z)
  | _, _, _, _ => mret (sequence_size, row_count, col_count, num_channels)
  end.

(** After the shape is resolved: a missing component makes the product
    fail, which the source reports as a [ValueError] (lines 190 to 196);
    the product is compared with the feature width (lines 197 to 205) and
    the metadata is built (lines 207 to 214). *)
Definition _prepare_metadata_features_and_labels (D : DataManager)
    (set_type : string)
    (sequence_size row_count col_count num_channels : option Z)
  : result (AutoMLMetadata * features * np.ndarray) :=
  let task := task (info D) in
  '(features, labels) ← split_features_and_labels D set_type;
  labels ← normalize_labels task labels;
  '(sequence_size, row_count, col_count, num_channels) ←
    resolve_shape features sequence_size row_count col_count num_channels;
  match sequence_size, row_count, col_count, num_channels with
  | Some s, Some r, Some c, Some ch =>
      let num_entries := (s * r * c * ch)%Z in
      num_features ← features_shape_at features 1;
      if bool_decide (Z.of_nat num_features ≠ num_entries) then
        Raise (ValueError (incompatible_shape_message sequence_size row_count
                             col_count num_channels num_entries
                             (Z.of_nat num_features)))
      else
        num_examples ← features_shape_at features 0;
        num_classes ← np.shape_at labels 1;
        metadata ← AutoMLMetadata_init (name (info D))
          (Z.of_nat num_examples) set_type (Z.of_nat num_classes) s r c ch;
        mret (metadata, features, labels)
  | _, _, _, _ =>
      Raise (ValueError (missing_shape_message sequence_size row_count
                           col_count num_channels))
  end.

(** ** Protocol-buffer messages of TensorFlow *)

Module tf.

(** A value of a [float_list]: a 32-bit float, that is a number with a
    significand of 24 bits, or an infinity. *)
Inductive float32 : Type :=
| F32 (q : Q)
| F32_inf (negative : bool).

Definition pow2 (z : Z) : Q := (2 ^ z)%Q.

(** The exponent [e] of a positive number [q]:
    [2 ^ e <= q < 2 ^ (e + 1)]. *)
Definition exponent (q : Q) : Z :=
  let e := (Z.log2 (Qnum q) - Z.log2 (Z.pos (Qden q)))%Z in
  if Qle_bool (pow2 e) q then e else (e - 1)%Z.

(** The nearest integer, the even one of two that are equally near. *)
Definition round_half_even (x : Q) : Z :=
  let f := Qfloor x in
  match (x - inject_Z f ?= 1 # 2)%Q with
  | Lt => f
  | Gt => (f + 1)%Z
  | Eq => if Z.even f then f else (f + 1)%Z
  end.

(** A 64-bit float stored in a [float] field: the nearest 32-bit float,
    whose last bit is worth [2 ^ (e - 23)] for the exponent [e] of the
    number and never less than [2 ^ (-149)]; a number that rounds to
    [2 ^ 128] or beyond becomes an infinity. *)
Definition to_float32 (x : Q) : float32 :=
  let a := Qabs x in
  if Qeq_bool a 0 then F32 0 else
  let e := Z.max (exponent a) (-126) in
  let ulp := pow2 (e - 23) in
  let r := (inject_Z (round_half_even (a / ulp)) * ulp)%Q in
  if Qle_bool (pow2 128) r then F32_inf (negb (Qle_bool 0 x))
  else F32 (Qred (if Qle_bool 0 x then r else - r)).

Inductive Feature : Type :=
| Int64List (value : list Z)
| FloatList (value : list float32)
| BytesList (value : list string).

(** [tf.train.SequenceExample]: a context and named feature lists. *)
Record SequenceExample : Type := mk {
  context : gmap string Feature;
  feature_lists : gmap string (list Feature)
}.

End tf.

Definition _int64_feature (value : list Z) : tf.Feature := tf.Int64List value.
Definition _bytes_feature (value : list string) : tf.Feature :=
  tf.BytesList value.
Definition _float_feature (value : list Q) : tf.Feature :=
  tf.FloatList (tf.to_float32 <$> value).
Definition _feature_list (feature : list tf.Feature) : list tf.Feature :=
  feature.

(** ** Encoding one example *)

(** The entries of a one-dimensional array, as the protobuf constructors
    and [enumerate] read them; arrays of another rank are outside the data
    model and an error of the library call here. *)
Definition entries_1d (a : np.ndarray) : result (list Q) :=
  match np.shape a with
  | [_] => Ok (np.data a)
  | _ => Raise (LibError "expected a one-dimensional array")
  end.

Definition csr_feature_vector_to_lists (sparse_feature_vector : sp.csr_row)
  : list Z * list Z * list Q :=
  let sparse_col_index := sp.indices sparse_feature_vector in
  let sparse_value := sp.data sparse_feature_vector in
  let sparse_row_index := replicate (length sparse_col_index) 0%Z in
  (sparse_col_index, sparse_row_index, sparse_value).

(** The loop of [dense_to_sparse_label] from position [index] on; a value
    is kept when it is truthy, that is, not zero. *)
Fixpoint dense_to_sparse_from (index : Z) (values : list Q)
  : list Z * list Q :=
  match values with
  | [] => ([], [])
  | value :: values' =>
      let '(label_indexes, label_scores) :=
        dense_to_sparse_from (index + 1)%Z values' in
      if negb (Qeq_bool value 0)
      then (index :: label_indexes, value :: label_scores)
      else (label_indexes, label_scores)
  end.

Definition dense_to_sparse_label (dense_label : np.ndarray)
  : result (list Z * list Q) :=
  values ← entries_1d dense_label;
  mret (dense_to_sparse_from 0 values).

(** A row of the feature matrix as the loop sees it. *)
Inductive feature_row : Type :=
| DenseRow (a : np.ndarray)
| SparseRow (r : sp.csr_row).

(** The rows [iter(features)] yields. A sparse matrix yields [self[r, :]]
    for each row [r] in turn, which a matrix in coordinate format does not
    support: it has no row to yield, or fails at the first one. *)
Definition features_iter (f : features) : result (list feature_row) :=
  match f with
  | Dense a =>
      match np.iter a with
      | Ok rows => Ok (DenseRow <$> rows)
      | Raise e => Raise e
      end
  | Sparse m => Ok (SparseRow <$> sp.rows m)
  | SparseCoo m =>
      if bool_decide (sp.coo_nrows m = 0) then Ok []
      else Raise (LibError "'coo_matrix' object is not subscriptable")
  end.

Definition sparse_sequence_message : string :=
  "Doesn't support sequence_size != 1 " +:+ "for sparse format!".

(** The body of the loop up to the serialised example (lines 333 to 371):
    [counter] is the number of examples written so far. *)
Definition sequence_example_of_row (is_test_set : bool) (sequence_size : Z)
    (id_translation counter : Z) (row : feature_row) (label_row : np.ndarray)
  : result tf.SequenceExample :=
  '(label_index, label_score) ←
    (if is_test_set then mret (_int64_feature [], _float_feature [])
     else
       '(label_indexes, label_scores) ← dense_to_sparse_label label_row;
       mret (_int64_feature label_indexes, _float_feature label_scores));
  let context_dict : gmap string tf.Feature :=
    {[ "id" := _int64_feature [(counter + id_translation)%Z];
       "label_index" := label_index;
       "label_score" := label_score ]} in
  feature_list_dict ←
    match row with
    | SparseRow r =>
        if bool_decide (sequence_size ≠ 1%Z) then
          Raise (NotImplementedError sparse_sequence_message)
        else
          let '(sparse_col_index, sparse_row_index, sparse_value) :=
            csr_feature_vector_to_lists r in
          mret ({[ "0_sparse_col_index" :=
                     _feature_list [_int64_feature sparse_col_index];
                   "0_sparse_row_index" :=
                     _feature_list [_int64_feature sparse_row_index];
                   "0_sparse_value" :=
                     _feature_list [_float_feature sparse_value] ]}
                : gmap string (list tf.Feature))
    | DenseRow a =>
        feature_list ←
          (if bool_decide (sequence_size = 1%Z) then
             values ← entries_1d a;
             mret [_float_feature values]
           else
             frames ← np.reshape_rows a sequence_size;
             frames ← np.iter frames;
             mret ((fun f => _float_feature (np.data f)) <$> frames));
        mret ({[ "0_dense_input" := _feature_list feature_list ]}
              : gmap string (list tf.Feature))
    end;
  mret (tf.mk context_dict feature_list_dict).

(** ** Effects on the file system *)

(** Paths are kept as the expressions the program builds them with. The
    operating system is assumed to carry out what it is asked: an event
    stands for an operation that succeeded. [mkdir_if_absent] is
    [if not os.path.isdir(p): os.mkdir(p)]; [rename_or_warn] and
    [copy_or_warn] are the two [try] blocks at the end of the run, whose
    failures the source only reports. *)
Inductive path : Type :=
| Path (s : string)
| os_path_join (p : path) (component : string)
| os_path_dirname (p : path)
| os_path_abspath (p : path).

Inductive io_event : Type :=
| np_savetxt (fname : path) (X : np.ndarray) (fmt : string)
| TFRecordWriter_open (p : path)
| TFRecordWriter_write (record : tf.SequenceExample)
| TFRecordWriter_close
| write_text (p : path) (text : string)
| mkdir_if_absent (p : path)
| rename_or_warn (src dst : path)
| copy_or_warn (files : list (path * path)).

(** A computation with effects: the events it performed, in order, and
    how it ended. *)
Record io (A : Type) : Type := IO {
  trace : list io_event;
  outcome : result A
}.
Arguments IO {A} trace outcome.
Arguments trace {A} _.
Arguments outcome {A} _.

Global Instance io_ret : MRet io := fun _ a => IO [] (Ok a).
Global Instance io_bind : MBind io := fun _ _ f m =>
  match outcome m with
  | Ok a => IO (trace m ++ trace (f a)) (outcome (f a))
  | Raise e => IO (trace m) (Raise e)
  end.

Definition emit (e : io_event) : io unit := IO [e] (Ok tt).
Definition lift {A : Type} (r : result A) : io A := IO [] r.

(** [with tf.python_io.TFRecordWriter(p) as writer: body]: the file is
    created when the writer is built and closed when the block is left,
    also by an exception. *)
Definition with_TFRecordWriter {A : Type} (p : path) (body : io A) : io A :=
  IO (TFRecordWriter_open p :: trace body ++ [TFRecordWriter_close])
     (outcome body).

(** [max_num_examples and counter >= max_num_examples]. *)
Definition limit_reached (max_num_examples : option Z) (counter : Z) : bool :=
  truthy max_num_examples &&
  match max_num_examples with
  | Some m => bool_decide (counter >= m)%Z
  | None => false
  end.

Definition metadata_textproto_template : string :=
  "is_sequence: false" +:+ nl +:+
  "sample_count: <sample_count>" +:+ nl +:+
  "sequence_size: <sequence_size>" +:+ nl +:+
  "output_dim: <output_dim>" +:+ nl +:+
  "matrix_spec {" +:+ nl +:+
  "  col_count: <col_count>" +:+ nl +:+
  "  row_count: <row_count>" +:+ nl +:+
  "  num_channels: <num_channels>" +:+ nl +:+
  "  is_sequence_col: false" +:+ nl +:+
  "  is_sequence_row: false" +:+ nl +:+
  "  has_locality_col: false" +:+ nl +:+
  "  has_locality_row: false" +:+ nl +:+
  "  format: <format>" +:+ nl +:+
  "}" +:+ nl.

(** The text [_write_metadata_textproto] builds. *)
Definition metadata_textproto (counter : Z) (metadata : AutoMLMetadata)
    (D_info : Info) : string :=
  let sample_count := counter in
  let _format :=
    if bool_decide (format D_info = "dense") then "DENSE" else "SPARSE" in
  let t := metadata_textproto_template in
  let t := replace t "<sample_count>" (str sample_count) in
  let t := replace t "<output_dim>" (str (output_dim metadata)) in
  let t := replace t "<sequence_size>" (str (sequence_size metadata)) in
  let t := replace t "<row_count>" (str (row_count metadata)) in
  let t := replace t "<col_count>" (str (col_count metadata)) in
  let t := replace t "<num_channels>" (str (num_channels metadata)) in
  replace t "<format>" _format.

Definition _write_metadata_textproto (counter : Z) (metadata : AutoMLMetadata)
    (D_info : Info) (filepath : path) : io unit :=
  let metadata_filename := "metadata.textproto" in
  let metadata_filepath :=
    os_path_join (os_path_dirname filepath) metadata_filename in
  emit (write_text metadata_filepath
          (metadata_textproto counter metadata D_info)).

(** ** Writing one split *)

(** [np.savetxt(fname, X, fmt=fmt)]: the file is opened first; an array
    that is neither one- nor two-dimensional is then refused. *)
Definition savetxt (fname : path) (X : np.ndarray) (fmt : string) : io unit :=
  emit (np_savetxt fname X fmt);;
  if bool_decide (np.ndim X = 1) || bool_decide (np.ndim X = 2) then mret tt
  else lift (Raise (LibError "numpy.savetxt: expected 1D or 2D array")).

(** [zip(features, labels)]: [iter] is called on the two, then the rows
    are taken in turn. A dense array that cannot be iterated fails in
    [iter]; a sparse matrix fails only when its first row is taken. *)
Definition zip_rows (features : features) (labels : np.ndarray)
  : result (list (feature_row * np.ndarray)) :=
  match features with
  | Dense _ =>
      feature_rows ← features_iter features;
      label_rows ← np.iter labels;
      mret (zip feature_rows label_rows)
  | Sparse _ | SparseCoo _ =>
      label_rows ← np.iter labels;
      feature_rows ← features_iter features;
      mret (zip feature_rows label_rows)
  end.

(** The loop over the rows (lines 332 to 375), entered with [counter]
    examples already written; it returns the final counter. *)
Fixpoint write_examples (is_test_set : bool)
    (sequence_size id_translation : Z) (max_num_examples : option Z)
    (rows : list (feature_row * np.ndarray)) (counter : Z) : io Z :=
  match rows with
  | [] => mret counter
  | (row, label_row) :: rows' =>
      sequence_example ←
        lift (sequence_example_of_row is_test_set sequence_size
                id_translation counter row label_row);
      emit (TFRecordWriter_write sequence_example);;
      let counter := (counter + 1)%Z in
      if limit_reached max_num_examples counter then mret counter
      else write_examples is_test_set sequence_size id_translation
             max_num_examples rows' counter
  end.

(** The assertion that [labels] is a numpy array holds by the type of
    [labels]; [has_sparse_features] is read off the rows. *)
Definition convert_vectors_to_sequence_example (filepath : path)
    (metadata : AutoMLMetadata) (features : features) (labels : np.ndarray)
    (D_info : Info) (max_num_examples : option Z) (num_shards : Z) : io unit :=
  let dataset_name := dataset_name metadata in
  let set_type := set_type metadata in
  let sequence_size := sequence_size metadata in
  let is_test_set := bool_decide (set_type = "test") in
  id_translation ←
    (if is_test_set then
       let solution_name := dataset_name +:+ ".solution" in
       let solution_dir := os_path_abspath (os_path_dirname filepath) in
       let solution_path := os_path_join solution_dir solution_name in
       savetxt solution_path labels "%.1f";;
       mret 0%Z
     else mret (test_num D_info));
  counter ←
    with_TFRecordWriter filepath
      (rows ← lift (zip_rows features labels);
       write_examples is_test_set sequence_size id_translation
         max_num_examples rows 0%Z);
  _write_metadata_textproto counter metadata D_info filepath.

(** ** The whole dataset *)

(** [DataManager(dataset_name, input_dir, ...)] is the loading
    collaborator; the dataset [D] it returns is an argument here, and so
    are the command-line [FLAGS] that
    [_prepare_metadata_features_and_labels] takes its shape from. *)
Definition press_a_button_and_give_me_an_AutoDL_dataset (FLAGS : Flags)
    (D : DataManager) (input_dir dataset_name output_dir : string)
    (max_num_examples_train max_num_examples_test : option Z)
    (num_shards_train num_shards_test : Z) (new_dataset_name : option string)
  : io (path * string) :=
  let prepare set_type :=
    _prepare_metadata_features_and_labels D set_type
      (FLAGS_sequence_size FLAGS) (FLAGS_row_count FLAGS)
      (FLAGS_col_count FLAGS) (FLAGS_num_channels FLAGS) in
  let new_dataset_name :=
    match new_dataset_name with
    | Some s => if bool_decide (s = "") then dataset_name else s
    | None => dataset_name
    end in
  let new_dataset_name :=
    if truthy max_num_examples_train
    then new_dataset_name +:+ "_" +:+ str_opt max_num_examples_train
    else new_dataset_name in
  let new_dataset_name :=
    if truthy max_num_examples_test
    then new_dataset_name +:+ "_" +:+ str_opt max_num_examples_test
    else new_dataset_name in
  let dataset_dir := os_path_join (Path output_dir) new_dataset_name in
  emit (mkdir_if_absent dataset_dir);;
  let dataset_data_dir :=
    os_path_join dataset_dir (new_dataset_name +:+ ".data") in
  emit (mkdir_if_absent dataset_data_dir);;
  (* Format test set *)
  let set_type := "test" in
  let test_dir := os_path_join dataset_data_dir set_type in
  emit (mkdir_if_absent test_dir);;
  let filepath :=
    os_path_join (os_path_join dataset_data_dir set_type)
      ("sample-" +:+ dataset_name +:+ "-" +:+ set_type +:+ ".tfrecord") in
  '(metadata, features, labels) ← lift (prepare set_type);
  convert_vectors_to_sequence_example filepath metadata features labels
    (info D) max_num_examples_test 1;;
  (* Format training set *)
  let set_type := "train" in
  let train_dir := os_path_join dataset_data_dir set_type in
  emit (mkdir_if_absent train_dir);;
  let filepath :=
    os_path_join (os_path_join dataset_data_dir set_type)
      ("sample-" +:+ dataset_name +:+ "-" +:+ set_type +:+ ".tfrecord") in
  '(metadata, features, labels) ← lift (prepare set_type);
  convert_vectors_to_sequence_example filepath metadata features labels
    (info D) max_num_examples_train 1;;
  (* Move solution file to grand-parent directory *)
  let solution_filepath :=
    os_path_join (os_path_join dataset_data_dir "test")
      (dataset_name +:+ ".solution") in
  let new_solution_filepath :=
    os_path_join dataset_dir (new_dataset_name +:+ ".solution") in
  emit (rename_or_warn solution_filepath new_solution_filepath);;
  (* Copy original info file to formatted dataset *)
  emit (copy_or_warn
          ((fun info_file_type =>
              (os_path_join (os_path_join (Path input_dir) dataset_name)
                 (dataset_name +:+ info_file_type +:+ ".info"),
               os_path_join dataset_dir
                 (new_dataset_name +:+ info_file_type +:+ ".info")))
             <$> ["_public"; "_private"]));;
  mret (dataset_dir, new_dataset_name).

(** ** Reading a trace *)

Global Instance path_eq_dec : EqDecision path.
Proof. solve_decision. Defined.

(** The examples written through a writer opened on [p], in order;
    [writing] tells whether such a writer is open. *)
Fixpoint records_from (p : path) (writing : bool) (t : list io_event)
  : list tf.SequenceExample :=
  match t with
  | [] => []
  | TFRecordWriter_open q :: t' => records_from p (bool_decide (q = p)) t'
  | TFRecordWriter_write r :: t' =>
      if writing then r :: records_from p writing t'
      else records_from p writing t'
  | TFRecordWriter_close :: t' => records_from p false t'
  | _ :: t' => records_from p writing t'
  end.

Definition records_of (p : path) (t : list io_event)
  : list tf.SequenceExample := records_from p false t.

(** All examples written, whatever the file. *)
Definition records (t : list io_event) : list tf.SequenceExample :=
  omap (fun e => match e with
                 | TFRecordWriter_write r => Some r
                 | _ => None
                 end) t.

(** The identifier of an example. *)
Definition example_id (ex : tf.SequenceExample) : option Z :=
  match tf.context ex !! "id" with
  | Some (tf.Int64List [i]) => Some i
  | _ => None
  end.

(** What a trace did to the file system, besides the examples. *)
Definition solution_written (t : list io_event) : bool :=
  existsb (fun e => match e with np_savetxt _ _ _ => true | _ => false end) t.

Definition record_file_created (t : list io_event) : bool :=
  existsb (fun e => match e with TFRecordWriter_open _ => true | _ => false end)
    t.

(** The text of the last sidecar written to [p]. *)
Definition text_written (p : path) (t : list io_event) : option string :=
  last (omap (fun e => match e with
                       | write_text q text =>
                           if bool_decide (q = p) then Some text else None
                       | _ => None
                       end) t).

(** ** Vocabulary of the properties *)

(** The number of entries of [l] that satisfy [p]. *)
Fixpoint count (p : Q → bool) (l : list Q) : nat :=
  match l with
  | [] => 0
  | x :: l' => (if p x then 1 else 0) + count p l'
  end.

(** A label is binary when it is 0 or 1. *)
Definition is_binary (x : Q) : Prop := (x == 0 ∨ x == 1)%Q.

(** A row of two indicator columns of which exactly one is active. *)
Definition one_hot_pair (row : list Q) : Prop :=
  ∃ c0 c1 : Q, row = [c0; c1] ∧ (c0 + c1 == 1)%Q ∧
    ((c0 == 1 ∧ c1 == 0) ∨ (c0 == 0 ∧ c1 == 1))%Q.

(** The number of times the body of the loop of
    [convert_vectors_to_sequence_example] runs to its end, when it is
    entered with [counter] examples written and [n] rows left and no row
    fails. *)
Fixpoint iterations (max_num_examples : option Z) (counter : Z) (n : nat)
  : nat :=
  match n with
  | O => 0
  | S n' =>
      if limit_reached max_num_examples (counter + 1) then 1
      else S (iterations max_num_examples (counter + 1) n')
  end.

(** The examples of the given rows, the first of them encoded with
    [counter] examples written before it. *)
Fixpoint encode_examples (is_test_set : bool)
    (sequence_size id_translation : Z)
    (rows : list (feature_row * np.ndarray)) (counter : Z)
  : result (list tf.SequenceExample) :=
  match rows with
  | [] => Ok []
  | (row, label_row) :: rows' =>
      ex ← sequence_example_of_row is_test_set sequence_size id_translation
             counter row label_row;
      exs ← encode_examples is_test_set sequence_size id_translation rows'
              (counter + 1);
      mret (ex :: exs)
  end.

(** The events before the record file is opened: the solution file of a
    test split. *)
Definition solution_events (filepath : path) (metadata : AutoMLMetadata)
    (labels : np.ndarray) : list io_event :=
  if bool_decide (set_type metadata = "test")
  then [np_savetxt
          (os_path_join (os_path_abspath (os_path_dirname filepath))
             (dataset_name metadata +:+ ".solution"))
          labels "%.1f"]
  else [].

(** The offset added to the counter: 0 for a test split, [test_num] of
    the dataset otherwise. *)
Definition id_offset (metadata : AutoMLMetadata) (D_info : Info) : Z :=
  if bool_decide (set_type metadata = "test") then 0%Z else test_num D_info.

Definition metadata_path (filepath : path) : path :=
  os_path_join (os_path_dirname filepath) "metadata.textproto".

(** The block under the record writer (lines 332 to 375). *)
Definition convert_body (metadata : AutoMLMetadata) (features : features)
    (labels : np.ndarray) (D_info : Info) (max_num_examples : option Z)
  : io Z :=
  rows ← lift (zip_rows features labels);
  write_examples (bool_decide (set_type metadata = "test"))
    (sequence_size metadata) (id_offset metadata D_info) max_num_examples
    rows 0.

(** The label array of a test split is one that [np.savetxt] accepts. *)
Definition savetxt_accepts (metadata : AutoMLMetadata) (labels : np.ndarray)
  : Prop :=
  set_type metadata = "test" → np.ndim labels = 1 ∨ np.ndim labels = 2.

(** A pair of rows that the body of the loop encodes: the label row is
    one-dimensional; the feature row is sparse with a sequence size of 1,
    or dense, one-dimensional and, for a sequence size other than 1, of a
    width that the sequence size divides. *)
Definition row_writable (sequence_size : Z)
    (r : feature_row * np.ndarray) : Prop :=
  (∃ k, np.shape r.2 = [k]) ∧
  match r.1 with
  | SparseRow _ => sequence_size = 1%Z
  | DenseRow a =>
      ∃ w, np.shape a = [w] ∧
        (sequence_size = 1 ∨
         (0 < sequence_size ∧ Z.of_nat w mod sequence_size = 0))%Z
  end.

(** The arrays of a split as the writer expects them: a label matrix, and
    a feature matrix that is sparse with a sequence size of 1, or dense,
    two-dimensional and, for a sequence size other than 1, of a width that
    the sequence size divides. *)
Definition writable (sequence_size : Z) (features : features)
    (labels : np.ndarray) : Prop :=
  (∃ n k, np.shape labels = [n; k]) ∧
  match features with
  | Sparse _ => sequence_size = 1%Z
  | Dense a =>
      ∃ n w, np.shape a = [n; w] ∧
        (sequence_size = 1 ∨
         (0 < sequence_size ∧ Z.of_nat w mod sequence_size = 0))%Z
  | SparseCoo _ => False
  end.

(** [clash old s]: [old] and [s] differ at a position that both have, so
    [old] is not a prefix of [s] however [s] is continued. *)
Fixpoint clash (old s : string) : bool :=
  match old, s with
  | String a old', String b s' => if Ascii.eqb a b then clash old' s' else true
  | _, _ => false
  end.

(** [no_match old s]: no occurrence of [old] starts inside [s], however
    [s] is continued. *)
Fixpoint no_match (old s : string) : bool :=
  match s with
  | EmptyString => true
  | String _ s' => clash old s && no_match old s'
  end.

(** [no_char c s]: the character [c] does not occur in [s]. *)
Definition no_char (c : ascii) (s : string) : bool :=
  forallb (fun b => negb (Ascii.eqb c b)) (list_ascii_of_string s).

(** The sidecar file with the given values in its seven fields. *)
Definition sidecar_text (sample_count sequence_size output_dim col_count
    row_count num_channels fmt : string) : string :=
  "is_sequence: false" +:+ nl +:+
  "sample_count: " +:+ sample_count +:+ nl +:+
  "sequence_size: " +:+ sequence_size +:+ nl +:+
  "output_dim: " +:+ output_dim +:+ nl +:+
  "matrix_spec {" +:+ nl +:+
  "  col_count: " +:+ col_count +:+ nl +:+
  "  row_count: " +:+ row_count +:+ nl +:+
  "  num_channels: " +:+ num_channels +:+ nl +:+
  "  is_sequence_col: false" +:+ nl +:+
  "  is_sequence_row: false" +:+ nl +:+
  "  has_locality_col: false" +:+ nl +:+
  "  has_locality_row: false" +:+ nl +:+
  "  format: " +:+ fmt +:+ nl +:+
  "}" +:+ nl.

(** The sidecar of a split of [counter] examples. *)
Definition sidecar (counter : Z) (metadata : AutoMLMetadata) (D_info : Info)
  : string :=
  sidecar_text (str counter) (str (sequence_size metadata))
    (str (output_dim metadata)) (str (col_count metadata))
    (str (row_count metadata)) (str (num_channels metadata))
    (if bool_decide (format D_info = "dense") then "DENSE" else "SPARSE").




(** [sub] occurs in [s]. *)
Definition occurs_in (sub s : string) : Prop :=
  ∃ before after, s = before +:+ sub +:+ after.

(** The name [press_a_button_and_give_me_an_AutoDL_dataset] gives the
    formatted dataset, and the places it writes to. *)
Definition formatted_name (dataset_name : string)
    (max_num_examples_train max_num_examples_test : option Z)
    (new_dataset_name : option string) : string :=
  let new_dataset_name :=
    match new_dataset_name with
    | Some s => if bool_decide (s = "") then dataset_name else s
    | None => dataset_name
    end in
  let new_dataset_name :=
    if truthy max_num_examples_train
    then new_dataset_name +:+ "_" +:+ str_opt max_num_examples_train
    else new_dataset_name in
  if truthy max_num_examples_test
  then new_dataset_name +:+ "_" +:+ str_opt max_num_examples_test
  else new_dataset_name.

Definition dataset_dir (output_dir new_dataset_name : string) : path :=
  os_path_join (Path output_dir) new_dataset_name.

Definition dataset_data_dir (output_dir new_dataset_name : string) : path :=
  os_path_join (dataset_dir output_dir new_dataset_name)
    (new_dataset_name +:+ ".data").

Definition split_dir (output_dir new_dataset_name set_type : string) : path :=
  os_path_join (dataset_data_dir output_dir new_dataset_name) set_type.

Definition record_path (output_dir new_dataset_name dataset_name
    set_type : string) : path :=
  os_path_join (split_dir output_dir new_dataset_name set_type)
    ("sample-" +:+ dataset_name +:+ "-" +:+ set_type +:+ ".tfrecord").

(** The last two steps: the solution file is moved, the info files are
    copied. *)
Definition closing_events (input_dir dataset_name output_dir
    new_dataset_name : string) : list io_event :=
  [rename_or_warn
     (os_path_join (split_dir output_dir new_dataset_name "test")
        (dataset_name +:+ ".solution"))
     (os_path_join (dataset_dir output_dir new_dataset_name)
        (new_dataset_name +:+ ".solution"));
   copy_or_warn
     [(os_path_join (os_path_join (Path input_dir) dataset_name)
         (dataset_name +:+ "_public" +:+ ".info"),
       os_path_join (dataset_dir output_dir new_dataset_name)
         (new_dataset_name +:+ "_public" +:+ ".info"));
      (os_path_join (os_path_join (Path input_dir) dataset_name)
         (dataset_name +:+ "_private" +:+ ".info"),
       os_path_join (dataset_dir output_dir new_dataset_name)
         (new_dataset_name +:+ "_private" +:+ ".info"))]].

(** The dense label row of [n] entries, the first at position [index],
    that the sparse encoding [(label_indexes, label_scores)] stands for:
    the score at a listed position, 0 elsewhere. *)
Fixpoint sparse_to_dense_from (index : Z) (n : nat) (label_indexes : list Z)
    (label_scores : list Q) : list Q :=
  match n with
  | O => []
  | S n' =>
      match label_indexes, label_scores with
      | i :: label_indexes', s :: label_scores' =>
          if (i =? index)%Z
          then s :: sparse_to_dense_from (index + 1) n' label_indexes'
                      label_scores'
          else 0%Q :: sparse_to_dense_from (index + 1) n' label_indexes
                        label_scores
      | _, _ => 0%Q :: sparse_to_dense_from (index + 1) n' [] []
      end
  end.

(** An example that carries no label. *)
Definition unlabelled (ex : tf.SequenceExample) : Prop :=
  tf.context ex !! "label_index" = Some (tf.Int64List [])
  ∧ tf.context ex !! "label_score" = Some (tf.FloatList []).

(** ** A small dataset for the examples *)

Module toy.

(** Three dense examples of two features with two classes. *)
Definition features3 : features :=
  Dense (np.matrix 2 [[1; 2]; [3; 4]; [5; 6]]%Q).
Definition labels3 : np.ndarray := np.matrix 2 [[1; 0]; [0; 1]; [1; 0]]%Q.

(** Two more examples of the same width. *)
Definition features2 : features := Dense (np.matrix 2 [[7; 8]; [9; 10]]%Q).
Definition labels2 : np.ndarray := np.matrix 2 [[0; 1]; [1; 0]]%Q.

(** An empty validation set, as an empty file loads. *)
Definition no_features : features := Dense (np.mk [0] []).
Definition no_labels : np.ndarray := np.mk [0] [].

(** One sparse example of width 2 with one stored entry, and two sparse
    rows of width 2 without any stored entry. *)
Definition sparse1 : features := Sparse (sp.mk 2 [sp.mk_row [0%Z] [1%Q]]).
Definition sparse3 : features :=
  Sparse (sp.mk 2 [sp.mk_row [0%Z] [1%Q]; sp.mk_row [1%Z] [1%Q];
                   sp.mk_row [0%Z; 1%Z] [1%Q; 1%Q]]).
Definition sparse_zero2 : features :=
  Sparse (sp.mk 2 [sp.mk_row [] []; sp.mk_row [] []]).
Definition labels1 : np.ndarray := np.matrix 2 [[1; 0]]%Q.

Definition info_dense : Info :=
  mk_info "dense" "multilabel.classification" "toy" 3.
Definition info_sparse : Info :=
  mk_info "sparse" "multilabel.classification" "toy" 1.

(** The test set has three examples, the training set two, and there is
    no validation example. *)
Definition D : DataManager :=
  mk_D info_dense
    (mk_data features2 no_features features3 labels2 no_labels labels3).


(** A sparse dataset whose two validation rows store no entry. *)
Definition D_sparse_zero : DataManager :=
  mk_D info_sparse
    (mk_data sparse3 sparse_zero2 sparse1 labels3 labels2 labels1).

(** A dense dataset of width 0 with three training and two validation
    rows. *)
Definition D_width_zero : DataManager :=
  mk_D info_dense
    (mk_data (Dense (np.mk [3; 0] [])) (Dense (np.mk [2; 0] []))
       (Dense (np.mk [1; 0] [])) labels3 labels2 labels1).

(** A dense dataset of width 2 whose two validation rows hold zeros
    only. *)
Definition D_dense_zero : DataManager :=
  mk_D info_dense
    (mk_data features3 (Dense (np.matrix 2 [[0; 0]; [0; 0]]%Q)) features3
       labels3 labels2 labels3).


(** A binary classification dataset with label vectors. *)
Definition D_binary : DataManager :=
  mk_D (mk_info "dense" "binary.classification" "toy" 3)
    (mk_data features2 no_features features3 (np.vector [0; 1]%Q) no_labels
       (np.vector [1; 0; 1]%Q)).

Definition no_flags : Flags := mk_flags None None None None.

(** Every example is a sequence of two frames of one feature. *)
Definition two_frames : Flags :=
  mk_flags (Some 2%Z) (Some 1%Z) (Some 1%Z) (Some 1%Z).

Definition metadata (set_type : string) (n sequence_size : Z)
  : AutoMLMetadata :=
  mk_metadata "toy" n 2 set_type 2 1 sequence_size 1.

Definition filepath : path := Path "out/sample-toy.tfrecord".

End toy.

(** * Properties *)

(** ** The label normaliser *)

(** Closes [Forall is_binary l] for a list of literals. *)
Ltac solve_binary :=
  repeat (apply Forall_cons; split;
          [first [left; reflexivity | right; reflexivity]|]);
  constructor.

Section LabelNormaliser.

Implicit Types (l : list Q) (x m : Q).

Lemma interleave_columns (f g : Q → Q) l :
  np.interleave (length l) 1 [f <$> l; g <$> l]
  = concat ((fun x => [f x; g x]) <$> l).
Proof.
  induction l as [|x l IH]; [done|].
  cbn. rewrite !drop_0. cbn in IH. by rewrite IH.
Qed.

(** Stacking two vectors computed entrywise from [l] gives the matrix
    whose row for [x] holds the two values computed from [x]. *)
Lemma stack_columns (f g : Q → Q) l :
  np.stack_axis1 [np.mk [length l] (f <$> l); np.mk [length l] (g <$> l)]
  = Ok (np.matrix 2 ((fun x => [f x; g x]) <$> l)).
Proof.
  unfold np.stack_axis1, np.matrix. cbn.
  rewrite !bool_decide_eq_true_2 by done. cbn.
  by rewrite interleave_columns, length_fmap.
Qed.

Lemma binary_to_multilabel_entrywise (g : Q → Q) l :
  binary_to_multilabel (np.mk [length l] (g <$> l))
  = Ok (np.matrix 2 ((fun x => [1 - g x; g x]%Q) <$> l)).
Proof.
  unfold binary_to_multilabel, np.rsub1. cbn.
  rewrite <- list_fmap_compose. apply (stack_columns (fun x => 1 - g x)%Q g).
Qed.

Lemma binary_to_multilabel_vector l :
  binary_to_multilabel (np.vector l)
  = Ok (np.matrix 2 ((fun x => [1 - x; x]%Q) <$> l)).
Proof.
  unfold np.vector. rewrite <- (list_fmap_id l) at 2.
  apply (binary_to_multilabel_entrywise id).
Qed.

Lemma regression_to_multilabel_vector l :
  regression_to_multilabel (np.vector l)
  = Ok (np.matrix 2
          ((fun x =>
              let above := np.of_bool (np.gt x (np.median (np.vector l))) in
              [1 - above; above]%Q) <$> l)).
Proof.
  unfold regression_to_multilabel, np.greater. cbn [np.shape np.data np.vector].
  apply (binary_to_multilabel_entrywise
           (fun x => np.of_bool (np.gt x (np.median (np.vector l))))).
Qed.

(** Strictly above the threshold is 1, anything else 0. *)
Lemma gt_spec x m :
  ((m < x)%Q → np.gt x (Some m) = true) ∧
  ((x <= m)%Q → np.gt x (Some m) = false).
Proof.
  unfold np.gt. split; intros H.
  - apply negb_true_iff. destruct (Qle_bool x m) eqn:E; [|done].
    apply Qle_bool_iff in E. by apply Qlt_not_le in H.
  - apply negb_false_iff. by apply Qle_bool_iff.
Qed.

(** *** [np.median] is a median *)

Lemma count_app p l1 l2 : count p (l1 ++ l2) = count p l1 + count p l2.
Proof. induction l1 as [|x l1 IH]; cbn; [done|]. rewrite IH. lia. Qed.

Lemma count_Forall p l :
  Forall (fun x => p x = true) l → count p l = length l.
Proof. induction 1 as [|x l Hx _ IH]; cbn; [done|]. rewrite Hx, IH. lia. Qed.

Lemma count_mono (p q : Q → bool) l :
  (∀ x, p x = true → q x = true) → count p l ≤ count q l.
Proof.
  intros Hpq. induction l as [|x l IH]; cbn; [done|].
  destruct (p x) eqn:E; [rewrite (Hpq _ E)|destruct (q x)]; lia.
Qed.

Lemma count_Permutation p l1 l2 : l1 ≡ₚ l2 → count p l1 = count p l2.
Proof. induction 1; cbn; lia. Qed.

Lemma insert_sorted_Permutation x l : np.insert_sorted x l ≡ₚ x :: l.
Proof.
  induction l as [|y l IH]; cbn; [done|].
  destruct (Qle_bool x y); [done|]. rewrite IH. apply Permutation_swap.
Qed.

Lemma sort_Permutation l : np.sort l ≡ₚ l.
Proof.
  induction l as [|x l IH]; cbn; [done|].
  by rewrite insert_sorted_Permutation, IH.
Qed.

Lemma insert_sorted_sorted x l :
  StronglySorted Qle l → StronglySorted Qle (np.insert_sorted x l).
Proof.
  induction 1 as [|y l Hl IH Hy]; cbn.
  - repeat constructor.
  - destruct (Qle_bool x y) eqn:E.
    + apply Qle_bool_iff in E. constructor; [by constructor|].
      constructor; [done|].
      eapply Forall_impl; [exact Hy|]. intros z Hz. by eapply Qle_trans.
    + assert (Hyx : (y <= x)%Q).
      { apply Qlt_le_weak, Qnot_le_lt. intros H%Qle_bool_iff. congruence. }
      constructor; [done|].
      apply (Permutation_Forall (symmetry (insert_sorted_Permutation x l))).
      by constructor.
Qed.

Lemma sort_sorted l : StronglySorted Qle (np.sort l).
Proof.
  induction l as [|x l IH]; cbn; [constructor|]. by apply insert_sorted_sorted.
Qed.

Lemma sorted_middle l1 x l2 :
  StronglySorted Qle (l1 ++ x :: l2) →
  Forall (fun y => (y <= x)%Q) l1 ∧ Forall (fun y => (x <= y)%Q) l2.
Proof.
  induction l1 as [|y l1 IH]; cbn; intros [Hs Hy]%StronglySorted_inv.
  - by split; [constructor|].
  - destruct (IH Hs) as [H1 H2]. split; [|done]. constructor; [|done].
    apply Forall_app in Hy as [_ Hy]. by apply Forall_cons in Hy as [? _].
Qed.

(** In a sorted list, at least [i + 1] entries are at most the entry at
    position [i], and at least [length s - i] are at least that entry. *)
Lemma sorted_rank (s : list Q) (i : nat) x :
  StronglySorted Qle s → s !! i = Some x →
  i + 1 ≤ count (fun y => Qle_bool y x) s ∧
  length s - i ≤ count (fun y => Qle_bool x y) s.
Proof.
  intros Hs Hi. pose proof (lookup_lt_Some _ _ _ Hi) as Hlt.
  rewrite <- (take_drop_middle _ _ _ Hi) in Hs |- *.
  destruct (sorted_middle _ _ _ Hs) as [H1 H2].
  rewrite !count_app. cbn. rewrite (proj2 (Qle_bool_iff x x)) by apply Qle_refl.
  rewrite (count_Forall (fun y => Qle_bool y x) (take i s)),
    (count_Forall (fun y => Qle_bool x y) (drop (S i) s)).
  - rewrite length_app, length_take. cbn. rewrite length_drop. lia.
  - eapply Forall_impl; [exact H2|]. intros y. apply Qle_bool_iff.
  - eapply Forall_impl; [exact H1|]. intros y. apply Qle_bool_iff.
Qed.

Lemma midpoint_between (a b : Q) :
  (a <= b)%Q → (a <= (a + b) / 2)%Q ∧ ((a + b) / 2 <= b)%Q.
Proof.
  intros H.
  assert (E : ((a + b) / 2 == (a + b) * (1 # 2))%Q) by reflexivity.
  rewrite E. split; lra.
Qed.

Lemma sorted_lookup_le (s : list Q) (i j : nat) a b :
  StronglySorted Qle s → s !! i = Some a → s !! j = Some b → i ≤ j →
  (a <= b)%Q.
Proof.
  intros Hs Hi Hj Hij. destruct (decide (i = j)) as [->|Hne].
  { rewrite Hi in Hj. injection Hj as ->. apply Qle_refl. }
  rewrite <- (take_drop_middle _ _ _ Hi) in Hs.
  destruct (sorted_middle _ _ _ Hs) as [_ H2].
  rewrite Forall_forall in H2. apply H2.
  apply list_elem_of_lookup. exists (j - S i).
  rewrite lookup_drop. rewrite <- Hj. f_equal. lia.
Qed.

(** At least half of the entries are at most the median and at least half
    are at least the median. *)
Lemma median_is_median l m :
  np.median (np.vector l) = Some m →
  length l ≤ 2 * count (fun y => Qle_bool y m) l ∧
  length l ≤ 2 * count (fun y => Qle_bool m y) l.
Proof.
  unfold np.median. cbn [np.data np.vector].
  pose proof (sort_sorted l) as Hs. pose proof (sort_Permutation l) as Hp.
  rewrite <- !(count_Permutation _ _ _ Hp), <- (Permutation_length Hp).
  set (s := np.sort l) in *. set (n := length s).
  destruct n as [|n'] eqn:En; [done|]. rewrite <- En.
  assert (Hn : 0 < n) by lia.
  assert (Hhalf : n / 2 < n) by (apply Nat.div_lt; lia).
  destruct (lookup_lt_is_Some_2 s (n / 2) Hhalf) as [b Hb].
  rewrite (nth_lookup_Some _ _ _ _ Hb).
  destruct (sorted_rank _ _ _ Hs Hb) as [Hb1 Hb2]. fold n in Hb2.
  destruct (Nat.even n) eqn:Ev.
  - apply Nat.even_spec in Ev as [k Hk].
    assert (Hk2 : n / 2 = k)
      by (rewrite Hk, Nat.mul_comm; apply Nat.div_mul; lia).
    destruct (lookup_lt_is_Some_2 s (n / 2 - 1)) as [a Ha]; [fold n; lia|].
    rewrite (nth_lookup_Some _ _ _ _ Ha).
    destruct (sorted_rank _ _ _ Hs Ha) as [Ha1 _].
    assert (Hab : (a <= b)%Q) by (eapply sorted_lookup_le; eauto; lia).
    destruct (midpoint_between _ _ Hab) as [Hl Hr].
    intros [= <-]. split.
    + etrans; [|apply Nat.mul_le_mono_l, (count_mono (fun y => Qle_bool y a))].
      * lia.
      * intros y Hy%Qle_bool_iff. apply Qle_bool_iff. by eapply Qle_trans.
    + etrans; [|apply Nat.mul_le_mono_l, (count_mono (fun y => Qle_bool b y))].
      * lia.
      * intros y Hy%Qle_bool_iff. apply Qle_bool_iff. by eapply Qle_trans.
  - intros [= <-].
    assert (Hmod : n = 2 * (n / 2) + n mod 2) by (apply Nat.div_mod; lia).
    assert (n mod 2 < 2) by (apply Nat.mod_upper_bound; lia).
    lia.
Qed.

(** *** Rows of a matrix *)

Lemma chunks_concat {A : Type} (m : nat) (rows : list (list A)) :
  Forall (fun r => length r = m) rows →
  np.chunks (length rows) m (concat rows) = rows.
Proof.
  induction 1 as [|r rows Hr _ IH]; cbn; [done|].
  subst m. by rewrite take_app_length, drop_app_length, IH.
Qed.

(** Iterating over a matrix yields its rows. *)
Lemma iter_matrix (ncols : nat) (rows : list (list Q)) :
  Forall (fun r => length r = ncols) rows →
  np.iter (np.matrix ncols rows) = Ok (np.mk [ncols] <$> rows).
Proof.
  intros H. unfold np.iter, np.matrix. cbn.
  by rewrite Nat.mul_1_r, chunks_concat.
Qed.

(** C5: for every binary-classification label vector of 0/1 scalars the
    normalised labels are the two-column indicator matrix whose row for the
    label [x] is [[1 - x; x]], so column 1 is the labels and column 0 is one
    minus the labels; iterating over it yields these rows in order; and for
    [[0,1,1,0]] the matrix is [[[1,0],[0,1],[0,1],[1,0]]]. *)
Theorem binary_labels_two_columns l :
  Forall is_binary l →
  let rows := (fun x => [1 - x; x]%Q) <$> l in
  normalize_labels "binary.classification" (np.vector l)
    = Ok (np.matrix 2 rows)
  ∧ np.iter (np.matrix 2 rows) = Ok (np.mk [2] <$> rows)
  ∧ Forall (Forall is_binary) rows
  ∧ normalize_labels "binary.classification" (np.vector [0; 1; 1; 0]%Q)
    = Ok (np.matrix 2 [[1; 0]; [0; 1]; [0; 1]; [1; 0]]%Q).
Proof.
  intros Hl rows. split_and!.
  - apply binary_to_multilabel_vector.
  - apply iter_matrix. subst rows. by apply Forall_fmap, Forall_true.
  - subst rows. apply Forall_fmap. eapply Forall_impl; [exact Hl|].
    intros x Hx. apply Forall_cons. split; [|by apply Forall_singleton].
    destruct Hx as [Hx|Hx]; unfold is_binary; rewrite Hx; [right|left];
      reflexivity.
  - reflexivity.
Qed.

Lemma binary_labels_two_columns_witness :
  normalize_labels "binary.classification" (np.vector [0; 1; 1; 0]%Q)
  = Ok (np.matrix 2 [[1; 0]; [0; 1]; [0; 1]; [1; 0]]%Q).
Proof.
  refine (proj1 (binary_labels_two_columns [0; 1; 1; 0]%Q _)).
  solve_binary.
Defined.

(** C4: for every regression label vector the threshold is the median of
    the labels (at least half of the labels are at most it and at least
    half are at least it) and the normalised labels are the two-column
    matrix whose row for the label [x] is [[0; 1]] when [x] is strictly
    above the threshold and [[1; 0]] otherwise, a label equal to the median
    included; for [[1,2,3,4,5]] it is [[[1,0],[1,0],[1,0],[0,1],[0,1]]]. *)
Theorem regression_labels_binarised_at_median l :
  let threshold := np.median (np.vector l) in
  let above x := np.of_bool (np.gt x threshold) in
  let rows := (fun x => [1 - above x; above x]%Q) <$> l in
  normalize_labels "regression" (np.vector l) = Ok (np.matrix 2 rows)
  ∧ np.iter (np.matrix 2 rows) = Ok (np.mk [2] <$> rows)
  ∧ (l ≠ [] → is_Some threshold)
  ∧ (∀ m, threshold = Some m →
       length l ≤ 2 * count (fun y => Qle_bool y m) l
       ∧ length l ≤ 2 * count (fun y => Qle_bool m y) l
       ∧ ∀ x, ((m < x)%Q → [1 - above x; above x]%Q = [0; 1]%Q)
            ∧ ((x <= m)%Q → [1 - above x; above x]%Q = [1; 0]%Q))
  ∧ normalize_labels "regression" (np.vector [1; 2; 3; 4; 5]%Q)
    = Ok (np.matrix 2 [[1; 0]; [1; 0]; [1; 0]; [0; 1]; [0; 1]]%Q).
Proof.
  intros threshold above rows. split_and!.
  - apply regression_to_multilabel_vector.
  - apply iter_matrix. subst rows. by apply Forall_fmap, Forall_true.
  - intros Hl. subst threshold. unfold np.median. cbn [np.data np.vector].
    rewrite (Permutation_length (sort_Permutation l)).
    destruct l; [done|]. cbn [length]. by destruct (Nat.even _).
  - intros m Hm. destruct (median_is_median l m Hm) as [H1 H2].
    split_and!; [done..|]. intros x. subst above. cbn beta. rewrite Hm.
    destruct (gt_spec x m) as [Hgt Hle].
    split; intros H; [rewrite (Hgt H)|rewrite (Hle H)]; reflexivity.
  - reflexivity.
Qed.

(** C10: for a binary-classification vector of 0/1 labels and for any
    regression vector, the normalised label matrix has one row per example,
    each with exactly two columns that sum to 1, one of them 1 and the
    other 0. *)
Theorem normalised_rows_one_hot (task : string) l :
  task = "regression" ∨ (task = "binary.classification" ∧ Forall is_binary l) →
  ∃ rows : list (list Q),
    normalize_labels task (np.vector l) = Ok (np.matrix 2 rows)
    ∧ np.iter (np.matrix 2 rows) = Ok (np.mk [2] <$> rows)
    ∧ length rows = length l
    ∧ Forall one_hot_pair rows.
Proof.
  intros [->|[-> Hl]].
  - eexists. split_and!;
      [apply regression_to_multilabel_vector| |by rewrite length_fmap|].
    { apply iter_matrix. by apply Forall_fmap, Forall_true. }
    apply Forall_fmap, Forall_true. intros x. cbn.
    exists (1 - np.of_bool (np.gt x (np.median (np.vector l))))%Q,
      (np.of_bool (np.gt x (np.median (np.vector l)))).
    destruct (np.gt x _); cbn; split_and!; try reflexivity;
      [right|left]; split; reflexivity.
  - eexists. split_and!;
      [apply binary_to_multilabel_vector| |by rewrite length_fmap|].
    { apply iter_matrix. by apply Forall_fmap, Forall_true. }
    apply Forall_fmap. eapply Forall_impl; [exact Hl|].
    intros x Hx. exists (1 - x)%Q, x. split_and!; [done|ring|].
    destruct Hx as [Hx|Hx]; [left|right]; rewrite Hx; split; reflexivity.
Qed.

Lemma normalised_rows_one_hot_witness :
  ∃ rows : list (list Q),
    normalize_labels "binary.classification" (np.vector [1; 0; 1]%Q)
      = Ok (np.matrix 2 rows)
    ∧ np.iter (np.matrix 2 rows) = Ok (np.mk [2] <$> rows)
    ∧ length rows = 3
    ∧ Forall one_hot_pair rows.
Proof.
  apply (normalised_rows_one_hot "binary.classification" [1; 0; 1]%Q).
  right. split; [reflexivity|solve_binary].
Defined.

End LabelNormaliser.

(** ** Effects: laws of sequencing *)

Lemma io_eta {T : Type} (m : io T) : IO (trace m) (outcome m) = m.
Proof. by destruct m. Qed.

Section Effects.

Context {A B : Type}.

Lemma io_bind_ok (m : io A) (f : A → io B) a :
  outcome m = Ok a →
  m ≫= f = IO (trace m ++ trace (f a)) (outcome (f a)).
Proof. intros H. unfold mbind, io_bind. by rewrite H. Qed.

Lemma io_bind_raise (m : io A) (f : A → io B) e :
  outcome m = Raise e → m ≫= f = IO (trace m) (Raise e).
Proof. intros H. unfold mbind, io_bind. by rewrite H. Qed.

Lemma lift_ok_bind (a : A) (f : A → io B) : lift (Ok a) ≫= f = f a.
Proof. unfold mbind, io_bind, lift. cbn. apply io_eta. Qed.

Lemma lift_raise_bind e (f : A → io B) :
  lift (Raise e) ≫= f = IO [] (Raise e).
Proof. done. Qed.

Lemma mret_bind (a : A) (f : A → io B) : mret a ≫= f = f a.
Proof. apply lift_ok_bind. Qed.

End Effects.

Lemma outcome_ok_eta {A : Type} (m : io A) a :
  outcome m = Ok a → m = IO (trace m) (Ok a).
Proof. intros <-. symmetry. apply io_eta. Qed.

Lemma bind_ok_eq {A B : Type} (m : io A) (f : A → io B) t1 a t2 r :
  m = IO t1 (Ok a) → f a = IO t2 r → m ≫= f = IO (t1 ++ t2) r.
Proof. intros -> H. unfold mbind, io_bind. cbn. by rewrite H. Qed.

Lemma bind_raise_eq {A B : Type} (m : io A) (f : A → io B) t1 e :
  m = IO t1 (Raise e) → m ≫= f = IO t1 (Raise e).
Proof. by intros ->. Qed.

Lemma emit_bind {B : Type} (e : io_event) (f : unit → io B) :
  emit e ≫= f = IO (e :: trace (f tt)) (outcome (f tt)).
Proof. done. Qed.

(** ** The loop over the rows *)

Section Loop.

Variables (is_test_set : bool) (sequence_size id_translation : Z).

Local Abbreviation encode :=
  (sequence_example_of_row is_test_set sequence_size id_translation).
Local Abbreviation loop :=
  (write_examples is_test_set sequence_size id_translation).

Lemma write_examples_cons_raise max row label_row rows counter e :
  encode counter row label_row = Raise e →
  loop max ((row, label_row) :: rows) counter = IO [] (Raise e).
Proof. intros H. cbn [write_examples]. by rewrite H. Qed.

Lemma write_examples_cons_ok max row label_row rows counter ex :
  encode counter row label_row = Ok ex →
  loop max ((row, label_row) :: rows) counter
  = let rest :=
      if limit_reached max (counter + 1)
      then mret (counter + 1)%Z
      else loop max rows (counter + 1)%Z in
    IO (TFRecordWriter_write ex :: trace rest) (outcome rest).
Proof.
  intros H. cbn [write_examples]. by rewrite H, lift_ok_bind, emit_bind.
Qed.

(** The identifier of an encoded example is the counter plus the
    offset. *)
Lemma sequence_example_id counter row label_row ex :
  encode counter row label_row = Ok ex →
  example_id ex = Some (counter + id_translation)%Z.
Proof.
  unfold sequence_example_of_row.
  destruct (if is_test_set then _ else _) as [[label_index label_score]|e];
    [|done].
  cbn [mbind result_bind].
  match goal with |- context [match ?r with SparseRow _ => _ | _ => _ end] =>
    destruct r end.
  - destruct (if bool_decide _ then _ else _) as [fl|]; [|done].
    cbn. intros [= <-]. unfold example_id. cbn [tf.context].
    by rewrite lookup_insert_eq.
  - destruct (bool_decide _); [done|].
    destruct (csr_feature_vector_to_lists r) as [[? ?] ?].
    cbn. intros [= <-]. unfold example_id. cbn [tf.context].
    by rewrite lookup_insert_eq.
Qed.

Lemma encode_examples_cons_inv rows row label_row counter exs :
  encode_examples is_test_set sequence_size id_translation
    ((row, label_row) :: rows) counter = Ok exs →
  ∃ ex exs', exs = ex :: exs' ∧ encode counter row label_row = Ok ex ∧
    encode_examples is_test_set sequence_size id_translation rows
      (counter + 1) = Ok exs'.
Proof.
  cbn [encode_examples]. destruct (encode counter row label_row) as [ex|];
    [|done].
  cbn [mbind result_bind].
  destruct (encode_examples _ _ _ rows _) as [exs'|]; [|done].
  intros [= <-]. by exists ex, exs'.
Qed.

Lemma encode_examples_length rows counter exs :
  encode_examples is_test_set sequence_size id_translation rows counter
    = Ok exs → length exs = length rows.
Proof.
  revert counter exs. induction rows as [|[row label_row] rows IH];
    intros counter exs.
  - by intros [= <-].
  - intros (ex & exs' & -> & _ & H)%encode_examples_cons_inv.
    cbn. by rewrite (IH _ _ H).
Qed.

Lemma encode_examples_ids rows counter exs :
  encode_examples is_test_set sequence_size id_translation rows counter
    = Ok exs →
  example_id <$> exs
  = Some <$> seqZ (counter + id_translation) (Z.of_nat (length rows)).
Proof.
  revert counter exs. induction rows as [|[row label_row] rows IH];
    intros counter exs.
  - by intros [= <-].
  - intros (ex & exs' & -> & Hex & H)%encode_examples_cons_inv.
    rewrite seqZ_cons by (cbn [length]; lia). cbn [fmap list_fmap].
    rewrite (sequence_example_id _ _ _ _ Hex), (IH _ _ H).
    do 3 f_equal; cbn [length]; lia.
Qed.

Lemma encode_examples_take rows counter exs (k : nat) :
  encode_examples is_test_set sequence_size id_translation rows counter
    = Ok exs →
  encode_examples is_test_set sequence_size id_translation (take k rows)
    counter = Ok (take k exs).
Proof.
  revert counter exs k. induction rows as [|[row label_row] rows IH];
    intros counter exs k.
  - intros [= <-]. by destruct k.
  - intros (ex & exs' & -> & Hex & H)%encode_examples_cons_inv.
    destruct k as [|k]; [done|]. cbn [take encode_examples].
    by rewrite Hex, (IH _ _ k H).
Qed.

(** A loop none of whose rows fails writes the examples of the first
    [iterations] rows and returns their number. *)
Lemma write_examples_ok max rows counter exs :
  encode_examples is_test_set sequence_size id_translation
    (take (iterations max counter (length rows)) rows) counter = Ok exs →
  loop max rows counter
  = IO (TFRecordWriter_write <$> exs)
       (Ok (counter + Z.of_nat (iterations max counter (length rows)))%Z).
Proof.
  revert counter exs. induction rows as [|[row label_row] rows IH];
    intros counter exs.
  - intros [= <-]. cbn. by rewrite Z.add_0_r.
  - cbn [length iterations].
    destruct (limit_reached max (counter + 1)) eqn:Hlim.
    + cbn [take]. rewrite take_0.
      intros (ex & exs' & -> & Hex & [= <-])%encode_examples_cons_inv.
      rewrite (write_examples_cons_ok _ _ _ _ _ _ Hex). cbn zeta.
      by rewrite Hlim.
    + cbn [take].
      intros (ex & exs' & -> & Hex & H)%encode_examples_cons_inv.
      rewrite (write_examples_cons_ok _ _ _ _ _ _ Hex). cbn zeta.
      rewrite Hlim, (IH _ _ H). cbn [trace outcome fmap list_fmap].
      do 2 f_equal. lia.
Qed.

(** Whatever happens, the loop only writes examples, at most one per row,
    numbered from the counter it was entered with. *)
Lemma write_examples_trace max rows counter :
  ∃ exs,
    trace (loop max rows counter) = TFRecordWriter_write <$> exs
    ∧ length exs ≤ length rows
    ∧ example_id <$> exs
      = Some <$> seqZ (counter + id_translation) (Z.of_nat (length exs))
    ∧ ∀ counter', outcome (loop max rows counter) = Ok counter' →
        counter' = (counter + Z.of_nat (length exs))%Z.
Proof.
  revert counter. induction rows as [|[row label_row] rows IH]; intros counter.
  - exists []. cbn. split_and!; [done..|]. intros ? [= <-]. lia.
  - destruct (encode counter row label_row) as [ex|e] eqn:Hex.
    + rewrite (write_examples_cons_ok _ _ _ _ _ _ Hex). cbn zeta.
      assert (Hid : ∀ exs,
        example_id <$> exs = Some <$> seqZ (counter + 1 + id_translation)
                                        (Z.of_nat (length exs)) →
        example_id <$> ex :: exs = Some <$> seqZ (counter + id_translation)
                                        (Z.of_nat (length (ex :: exs)))).
      { intros exs Hexs. rewrite seqZ_cons by (cbn [length]; lia).
        cbn [fmap list_fmap]. rewrite (sequence_example_id _ _ _ _ Hex), Hexs.
        do 3 f_equal; cbn [length]; lia. }
      destruct (limit_reached max (counter + 1)).
      * exists [ex]. cbn [trace outcome mret io_ret].
        split_and!; [done|cbn; lia|by apply Hid|].
        intros ? [= <-]. cbn. lia.
      * destruct (IH (counter + 1)%Z) as (exs & Ht & Hlen & Hids & Hout).
        exists (ex :: exs). cbn [trace outcome]. rewrite Ht.
        split_and!; [done|cbn; lia|by apply Hid|].
        intros c' Hc'. rewrite (Hout _ Hc'). cbn [length]. lia.
    + rewrite (write_examples_cons_raise _ _ _ _ _ _ Hex).
      exists []. cbn. split_and!; [done|lia|done|done].
Qed.

End Loop.

(** ** One split *)

Lemma records_app t1 t2 : records (t1 ++ t2) = records t1 ++ records t2.
Proof. apply omap_app. Qed.

Lemma records_writes exs : records (TFRecordWriter_write <$> exs) = exs.
Proof. induction exs as [|ex exs IH]; [done|]. cbn. f_equal. exact IH. Qed.

Section Convert.

Variables (filepath : path) (metadata : AutoMLMetadata).
Variables (features : features) (labels : np.ndarray) (D_info : Info).
Variables (max_num_examples : option Z) (num_shards : Z).

Local Abbreviation convert :=
  (convert_vectors_to_sequence_example filepath metadata features labels
     D_info max_num_examples num_shards).

Local Abbreviation convert_body :=
  (convert_body metadata features labels D_info max_num_examples).
Local Abbreviation savetxt_accepts := (savetxt_accepts metadata labels).

Lemma writer_then_metadata (body : io Z) :
  (with_TFRecordWriter filepath body
   ≫= λ counter, _write_metadata_textproto counter metadata D_info filepath)
  = IO (TFRecordWriter_open filepath :: trace body
        ++ TFRecordWriter_close
           :: match outcome body with
              | Ok counter =>
                  [write_text (metadata_path filepath)
                     (metadata_textproto counter metadata D_info)]
              | Raise _ => []
              end)
       (match outcome body with
        | Ok _ => Ok tt
        | Raise e => Raise e
        end).
Proof.
  unfold mbind, io_bind, with_TFRecordWriter. cbn [trace outcome].
  destruct (outcome body); [|done].
  unfold _write_metadata_textproto, emit, metadata_path. cbn [trace outcome].
  f_equal. by rewrite <- app_comm_cons, <- app_assoc.
Qed.

Lemma convert_unfold :
  savetxt_accepts →
  convert
  = IO (solution_events filepath metadata labels
        ++ TFRecordWriter_open filepath :: trace convert_body
        ++ TFRecordWriter_close
           :: match outcome convert_body with
              | Ok counter =>
                  [write_text (metadata_path filepath)
                     (metadata_textproto counter metadata D_info)]
              | Raise _ => []
              end)
       (match outcome convert_body with
        | Ok _ => Ok tt
        | Raise e => Raise e
        end).
Proof.
  intros Hsave. unfold convert_vectors_to_sequence_example, solution_events,
    convert_body, id_offset, savetxt_accepts in *.
  cbn zeta. destruct (bool_decide (set_type metadata = "test")) eqn:Htest.
  - apply bool_decide_eq_true_1 in Htest. specialize (Hsave Htest).
    unfold savetxt. rewrite emit_bind.
    assert (Hb : bool_decide (np.ndim labels = 1)
                 || bool_decide (np.ndim labels = 2) = true).
    { destruct Hsave as [->| ->]; done. }
    rewrite Hb. erewrite (io_bind_ok (_ ≫= _) _ 0%Z) by done.
    cbn beta. by rewrite writer_then_metadata.
  - by rewrite mret_bind, writer_then_metadata.
Qed.

(** A label array that [np.savetxt] refuses stops a test split right
    after the solution file is opened. *)
Lemma convert_savetxt_refuses :
  set_type metadata = "test" →
  ¬ (np.ndim labels = 1 ∨ np.ndim labels = 2) →
  convert
  = IO (solution_events filepath metadata labels)
       (Raise (LibError "numpy.savetxt: expected 1D or 2D array")).
Proof.
  intros Htest Hdim.
  unfold convert_vectors_to_sequence_example, solution_events.
  cbn zeta. rewrite (bool_decide_eq_true_2 _ Htest).
  unfold savetxt. rewrite emit_bind.
  assert (Hb : bool_decide (np.ndim labels = 1)
               || bool_decide (np.ndim labels = 2) = false).
  { apply orb_false_iff. split; apply bool_decide_eq_false_2; tauto. }
  by rewrite Hb.
Qed.

End Convert.

(** ** Rows that encode *)

Lemma length_chunks {A : Type} (n m : nat) (l : list A) :
  length (np.chunks n m l) = n.
Proof.
  revert l. induction n as [|n IH]; intros l; cbn; [done|]. by rewrite IH.
Qed.

Lemma sequence_example_of_row_ok is_test_set sequence_size id_translation
    counter r :
  row_writable sequence_size r →
  ∃ ex, sequence_example_of_row is_test_set sequence_size id_translation
          counter r.1 r.2 = Ok ex.
Proof.
  destruct r as [row label_row]. intros [[k Hk] Hrow]. cbn [fst snd] in *.
  unfold sequence_example_of_row.
  assert (Hlab : ∃ li ls,
    (if is_test_set
     then mret (_int64_feature [], _float_feature [])
     else dense_to_sparse_label label_row
          ≫= λ '(label_indexes, label_scores),
               mret (_int64_feature label_indexes,
                     _float_feature label_scores))
    = Ok (li, ls)).
  { destruct is_test_set; [by eexists _, _|].
    unfold dense_to_sparse_label, entries_1d. rewrite Hk.
    cbn [mbind result_bind mret result_ret].
    destruct (dense_to_sparse_from 0 (np.data label_row)). by eexists _, _. }
  destruct Hlab as (li & ls & ->). cbn [mbind result_bind].
  destruct row as [a|r].
  - destruct Hrow as (w & Hw & Hseq).
    destruct (bool_decide (sequence_size = 1%Z)) eqn:Hone.
    + unfold entries_1d. rewrite Hw. by eexists.
    + apply bool_decide_eq_false_1 in Hone.
      destruct Hseq as [?|[Hpos Hmod]]; [done|].
      unfold np.reshape_rows, np.size. rewrite Hw. cbn [np.prod foldr].
      rewrite Nat.mul_1_r, !bool_decide_eq_true_2 by done.
      cbn [andb mbind result_bind np.iter np.shape]. by eexists.
  - cbn in Hrow. subst sequence_size.
    rewrite bool_decide_eq_false_2 by (intros H; by apply H).
    destruct (csr_feature_vector_to_lists r) as [[? ?] ?]. by eexists.
Qed.

Lemma encode_examples_ok is_test_set sequence_size id_translation rows
    counter :
  Forall (row_writable sequence_size) rows →
  ∃ exs, encode_examples is_test_set sequence_size id_translation rows
           counter = Ok exs.
Proof.
  intros H. revert counter. induction H as [|[row label_row] rows Hr _ IH];
    intros counter; [by eexists|].
  destruct (sequence_example_of_row_ok is_test_set sequence_size
              id_translation counter _ Hr) as [ex Hex].
  destruct (IH (counter + 1)%Z) as [exs Hexs].
  exists (ex :: exs). cbn [encode_examples]. cbn [fst snd] in Hex.
  by rewrite Hex, Hexs.
Qed.

(** The rows of a writable split all encode, and there are as many pairs
    as the shorter of the two matrices has rows. *)
Lemma zip_rows_writable sequence_size features labels n n' :
  writable sequence_size features labels →
  features_shape_at features 0 = Ok n →
  np.shape_at labels 0 = Ok n' →
  ∃ rows, zip_rows features labels = Ok rows
    ∧ Forall (row_writable sequence_size) rows
    ∧ length rows = n `min` n'.
Proof.
  intros [(nl & k & Hl) Hf] Hn Hn'.
  unfold np.shape_at in Hn'. rewrite Hl in Hn'. injection Hn' as <-.
  unfold zip_rows, np.iter. rewrite Hl.
  destruct features as [a|m|m]; [| |done].
  - destruct Hf as (na & w & Ha & Hseq).
    unfold features_shape_at, np.shape_at in Hn. rewrite Ha in Hn.
    injection Hn as <-.
    unfold features_iter, np.iter. rewrite Ha.
    cbn [mbind result_bind mret result_ret]. eexists. split_and!; [done| |].
    + apply Forall_forall. intros [row label_row] Hin.
      apply elem_of_zip_l in Hin as Hrow. apply elem_of_zip_r in Hin as Hlab.
      apply list_elem_of_fmap in Hrow as (frow & -> & Hrow).
      apply list_elem_of_fmap in Hrow as (fdata & -> & _).
      apply list_elem_of_fmap in Hlab as (ldata & -> & _).
      split; cbn; [by eexists|]. by exists w.
    + by rewrite length_zip_with, !length_fmap, !length_chunks.
  - unfold features_shape_at in Hn. cbn in Hn. injection Hn as <-.
    cbn [features_iter mbind result_bind mret result_ret]. eexists.
    split_and!; [done| |].
    + apply Forall_forall. intros [row label_row] Hin.
      apply elem_of_zip_l in Hin as Hrow. apply elem_of_zip_r in Hin as Hlab.
      apply list_elem_of_fmap in Hrow as (frow & -> & _).
      apply list_elem_of_fmap in Hlab as (ldata & -> & _).
      split; cbn; [by eexists|done].
    + by rewrite length_zip_with, !length_fmap, length_chunks.
Qed.

(** ** How many examples are written *)

Lemma limit_reached_falsy max counter :
  truthy max = false → limit_reached max counter = false.
Proof. unfold limit_reached. by intros ->. Qed.

Lemma limit_reached_Some (k counter : Z) :
  k ≠ 0%Z → limit_reached (Some k) counter = bool_decide (counter >= k)%Z.
Proof.
  intros Hk. unfold limit_reached, truthy.
  by rewrite (proj2 (Z.eqb_neq k 0) Hk).
Qed.

Lemma iterations_falsy max counter n :
  truthy max = false → iterations max counter n = n.
Proof.
  intros H. revert counter. induction n as [|n IH]; intros counter; [done|].
  cbn [iterations]. by rewrite (limit_reached_falsy _ _ H), IH.
Qed.

Lemma iterations_limit (k counter : Z) n :
  (0 ≤ counter < k)%Z →
  iterations (Some k) counter n = n `min` Z.to_nat (k - counter).
Proof.
  revert counter. induction n as [|n IH]; intros counter Hk; [done|].
  cbn [iterations]. rewrite limit_reached_Some by lia.
  case_bool_decide.
  - replace (k - counter)%Z with 1%Z by lia. cbn. by destruct n.
  - rewrite IH by lia.
    replace (Z.to_nat (k - counter)) with (S (Z.to_nat (k - (counter + 1))))
      by lia.
    done.
Qed.

Lemma iterations_positive max counter n : 0 < n → 0 < iterations max counter n.
Proof. destruct n; [lia|]. cbn. destruct (limit_reached _ _); lia. Qed.

Lemma iterations_le max counter n : iterations max counter n ≤ n.
Proof.
  revert counter. induction n as [|n IH]; intros counter; [done|].
  cbn. destruct (limit_reached _ _); [lia|]. specialize (IH (counter + 1)%Z).
  lia.
Qed.

(** ** A split that is written to its end *)

Lemma writable_savetxt_accepts metadata features labels :
  writable (sequence_size metadata) features labels →
  savetxt_accepts metadata labels.
Proof. intros [(n & k & H) _] _. right. unfold np.ndim. by rewrite H. Qed.

Lemma convert_body_rows metadata features labels D_info max rows :
  zip_rows features labels = Ok rows →
  convert_body metadata features labels D_info max
  = write_examples (bool_decide (set_type metadata = "test"))
      (sequence_size metadata) (id_offset metadata D_info) max rows 0.
Proof. intros H. unfold convert_body. by rewrite H, lift_ok_bind. Qed.

(** When the rows all encode, the trace of the call is: the solution file
    for a test split, the record file with the examples of the first
    [iterations] rows, and the sidecar with that number. *)
Lemma convert_ok filepath metadata features labels D_info max num_shards
    rows exs :
  savetxt_accepts metadata labels →
  zip_rows features labels = Ok rows →
  encode_examples (bool_decide (set_type metadata = "test"))
    (sequence_size metadata) (id_offset metadata D_info) rows 0 = Ok exs →
  let k := iterations max 0 (length rows) in
  convert_vectors_to_sequence_example filepath metadata features labels
    D_info max num_shards
  = IO (solution_events filepath metadata labels
        ++ TFRecordWriter_open filepath
           :: (TFRecordWriter_write <$> take k exs)
        ++ [TFRecordWriter_close;
            write_text (metadata_path filepath)
              (metadata_textproto (Z.of_nat k) metadata D_info)])
       (Ok tt).
Proof.
  intros Hsave Hrows Hexs k. rewrite convert_unfold by done.
  rewrite (convert_body_rows _ _ _ _ _ _ Hrows).
  by rewrite (write_examples_ok _ _ _ _ _ _ _
                (encode_examples_take _ _ _ _ _ _ k Hexs)).
Qed.

Lemma records_convert_ok pre p exs post :
  records (pre ++ TFRecordWriter_open p :: (TFRecordWriter_write <$> exs)
           ++ post)
  = records pre ++ exs ++ records post.
Proof. by rewrite records_app; cbn; rewrite records_app, records_writes. Qed.

Lemma records_solution_events filepath metadata labels :
  records (solution_events filepath metadata labels) = [].
Proof. unfold solution_events. by case_bool_decide. Qed.

Lemma text_written_last p t text :
  text_written p (t ++ [write_text p text]) = Some text.
Proof.
  unfold text_written. rewrite omap_app. cbn.
  rewrite bool_decide_eq_true_2 by done. apply last_snoc.
Qed.

(** ** The text of the sidecar *)

Section Replace.

Implicit Types (old new s t : string) (c : ascii).

Lemma append_empty_r s : s +:+ "" = s.
Proof.
  induction s as [|b s IH]; [done|].
  change (String b (s +:+ "") = String b s). by rewrite IH.
Qed.

Lemma clash_prefix old s t :
  clash old s = true → String.prefix old (s +:+ t) = false.
Proof.
  revert s. induction old as [|a old IH]; intros [|b s]; try done.
  simpl. destruct (Ascii.eqb_spec a b) as [->|Hne].
  - intros H. destruct (ascii_dec b b); [by apply IH|done].
  - intros _. by destruct (ascii_dec a b).
Qed.

Lemma prefix_app old t : String.prefix old (old +:+ t) = true.
Proof.
  induction old as [|a old IH]; simpl; [by destruct t|].
  by destruct (ascii_dec a a).
Qed.

(** A part of the text in which no occurrence starts is copied. *)
Lemma replace_skip old new s t :
  no_match old s = true →
  replace_from old new 0 (s +:+ t) = s +:+ replace_from old new 0 t.
Proof.
  induction s as [|c s IH]; [done|].
  cbn [no_match]. intros [Hc Hs]%andb_true_iff.
  change (String c s +:+ t) with (String c (s +:+ t)).
  cbn [replace_from]. change (String c (s +:+ t)) with (String c s +:+ t).
  rewrite (clash_prefix _ _ _ Hc). by rewrite IH.
Qed.

Lemma replace_skip_end c old new s :
  no_match (String c old) s = true → replace_from (String c old) new 0 s = s.
Proof.
  induction s as [|b s IH]; [done|].
  cbn [no_match]. intros [Hc Hs]%andb_true_iff. cbn [replace_from].
  pose proof (clash_prefix _ _ "" Hc) as H. rewrite append_empty_r in H.
  rewrite H. by rewrite IH.
Qed.

Lemma replace_pass c old new s t :
  replace_from (String c old) new (String.length s) (s +:+ t)
  = replace_from (String c old) new 0 t.
Proof. induction s as [|b s IH]; [done|]. exact IH. Qed.

(** An occurrence is replaced and the scan goes on behind it. *)
Lemma replace_hit c old new t :
  replace_from (String c old) new 0 (String c old +:+ t)
  = new +:+ replace_from (String c old) new 0 t.
Proof.
  change (String c old +:+ t) with (String c (old +:+ t)).
  cbn [replace_from]. change (String c (old +:+ t)) with (String c old +:+ t).
  rewrite prefix_app.
  replace (String.length (String c old) - 1) with (String.length old)
    by (simpl; lia).
  by rewrite replace_pass.
Qed.

Lemma no_char_no_match c old s :
  no_char c s = true → no_match (String c old) s = true.
Proof.
  unfold no_char. induction s as [|b s IH]; [done|]. simpl.
  intros [Hb Hs]%andb_true_iff. apply negb_true_iff in Hb. rewrite Hb.
  simpl. by apply IH.
Qed.

(** The decimal text of an integer holds no ["<"]. *)
Lemma str_no_bracket (n : Z) : no_char "<" (str n) = true.
Proof.
  unfold str, NilZero.string_of_int.
  assert (H : ∀ u, no_char "<" (NilEmpty.string_of_uint u) = true).
  { induction u; cbn; done. }
  assert (H0 : ∀ u, no_char "<" (NilZero.string_of_uint u) = true).
  { intros u. unfold NilZero.string_of_uint. destruct u; try done; cbn;
      apply H. }
  destruct (Z.to_int n); [apply H0|]. cbn. apply H0.
Qed.

Lemma template_fields :
  metadata_textproto_template
  = sidecar_text "<sample_count>" "<sequence_size>" "<output_dim>"
      "<col_count>" "<row_count>" "<num_channels>" "<format>".
Proof. reflexivity. Qed.

End Replace.

Ltac replace_step :=
  first
    [ rewrite replace_hit
    | rewrite replace_skip
        by first [reflexivity | apply no_char_no_match, str_no_bracket]
    | rewrite replace_skip_end by reflexivity ].

(** The seven replacements fill the seven fields. *)
Lemma metadata_textproto_sidecar counter metadata D_info :
  metadata_textproto counter metadata D_info = sidecar counter metadata D_info.
Proof.
  unfold metadata_textproto, sidecar. cbn zeta. rewrite template_fields.
  unfold sidecar_text, replace. repeat replace_step. reflexivity.
Qed.

Global Opaque metadata_textproto.

(** ** The limit on the number of examples *)

Lemma write_examples_limit_ext is_test_set sequence_size id_translation
    max1 max2 rows counter :
  (∀ c, limit_reached max1 c = limit_reached max2 c) →
  write_examples is_test_set sequence_size id_translation max1 rows counter
  = write_examples is_test_set sequence_size id_translation max2 rows counter.
Proof.
  intros Hlim. revert counter.
  induction rows as [|[row label_row] rows IH]; intros counter; [done|].
  destruct (sequence_example_of_row is_test_set sequence_size id_translation
              counter row label_row) as [ex|e] eqn:Hex.
  - rewrite !(write_examples_cons_ok _ _ _ _ _ _ _ _ _ Hex). cbn zeta.
    by rewrite Hlim, IH.
  - by rewrite !(write_examples_cons_raise _ _ _ _ _ _ _ _ _ Hex).
Qed.

Lemma convert_limit_ext filepath metadata features labels D_info max1 max2
    num_shards :
  (∀ c, limit_reached max1 c = limit_reached max2 c) →
  convert_vectors_to_sequence_example filepath metadata features labels
    D_info max1 num_shards
  = convert_vectors_to_sequence_example filepath metadata features labels
      D_info max2 num_shards.
Proof.
  intros Hlim.
  assert (Hbody : convert_body metadata features labels D_info max1
                  = convert_body metadata features labels D_info max2).
  { unfold convert_body. destruct (zip_rows features labels); [|done].
    rewrite !lift_ok_bind. by apply write_examples_limit_ext. }
  destruct (decide (set_type metadata = "test")) as [Htest|Htest];
    [destruct (decide (np.ndim labels = 1 ∨ np.ndim labels = 2))
       as [Hdim|Hdim]|].
  - rewrite !convert_unfold by (by intros _). by rewrite Hbody.
  - by rewrite !convert_savetxt_refuses.
  - rewrite !convert_unfold by (by intros ?). by rewrite Hbody.
Qed.

Lemma text_written_convert p pre e mid e' text :
  text_written p (pre ++ e :: mid ++ [e'; write_text p text]) = Some text.
Proof.
  replace (pre ++ e :: mid ++ [e'; write_text p text])
    with ((pre ++ e :: mid ++ [e']) ++ [write_text p text]).
  - apply text_written_last.
  - rewrite <- !app_assoc. cbn. by rewrite <- !app_assoc.
Qed.

(** A writable split of [n] rows: every row encodes, and whatever the
    limit the call ends well, having written the examples of the first
    [iterations] rows and a sidecar with their number. *)
Lemma convert_writable filepath metadata features labels D_info num_shards
    (n : nat) :
  writable (sequence_size metadata) features labels →
  features_shape_at features 0 = Ok n →
  np.shape_at labels 0 = Ok n →
  ∃ rows exs,
    zip_rows features labels = Ok rows ∧ length rows = n
    ∧ encode_examples (bool_decide (set_type metadata = "test"))
        (sequence_size metadata) (id_offset metadata D_info) rows 0 = Ok exs
    ∧ length exs = n
    ∧ ∀ max,
        let call :=
          convert_vectors_to_sequence_example filepath metadata features
            labels D_info max num_shards in
        call
        = IO (solution_events filepath metadata labels
              ++ TFRecordWriter_open filepath
                 :: (TFRecordWriter_write <$> take (iterations max 0 n) exs)
              ++ [TFRecordWriter_close;
                  write_text (metadata_path filepath)
                    (sidecar (Z.of_nat (iterations max 0 n)) metadata D_info)])
             (Ok tt)
        ∧ records (trace call) = take (iterations max 0 n) exs
        ∧ length (records (trace call)) = iterations max 0 n
        ∧ text_written (metadata_path filepath) (trace call)
          = Some (sidecar (Z.of_nat (iterations max 0 n)) metadata D_info).
Proof.
  intros Hw Hn Hn'.
  destruct (zip_rows_writable _ _ _ _ _ Hw Hn Hn')
    as (rows & Hrows & Hall & Hlen).
  rewrite Nat.min_id in Hlen.
  destruct (encode_examples_ok (bool_decide (set_type metadata = "test"))
              (sequence_size metadata) (id_offset metadata D_info) rows 0 Hall)
    as [exs Hexs].
  pose proof (encode_examples_length _ _ _ _ _ _ Hexs) as Hlen'.
  exists rows, exs. split_and!; [done..|congruence|].
  intros max call.
  assert (Hcall : call
    = IO (solution_events filepath metadata labels
          ++ TFRecordWriter_open filepath
             :: (TFRecordWriter_write <$> take (iterations max 0 n) exs)
          ++ [TFRecordWriter_close;
              write_text (metadata_path filepath)
                (sidecar (Z.of_nat (iterations max 0 n)) metadata D_info)])
         (Ok tt)).
  { subst call. rewrite <- metadata_textproto_sidecar, <- Hlen.
    by apply convert_ok; [eapply writable_savetxt_accepts|..]. }
  rewrite Hcall. cbn [trace]. split_and!; [done| | |].
  - rewrite records_convert_ok, records_solution_events. cbn.
    by rewrite app_nil_r.
  - rewrite records_convert_ok, records_solution_events. cbn.
    rewrite app_nil_r, length_take. pose proof (iterations_le max 0 n). lia.
  - apply text_written_convert.
Qed.

Lemma toy_writable3 sequence_size :
  sequence_size = 1%Z → writable sequence_size toy.features3 toy.labels3.
Proof.
  intros ->. split; [by exists 3, 2|]. exists 3, 2. split; [done|by left].
Defined.

(** C9: a limit of 0 behaves as no limit: the call with [max_examples = 0]
    is the call without a limit, effect by effect; on a writable split of
    [n] rows it ends well with all [n] examples written; and no value of
    the limit makes a writable split with at least one row write no
    example. *)
Theorem zero_limit_is_no_limit filepath metadata features labels D_info
    num_shards :
  let call max :=
    convert_vectors_to_sequence_example filepath metadata features labels
      D_info max num_shards in
  call (Some 0%Z) = call None
  ∧ ∀ n : nat,
      writable (sequence_size metadata) features labels →
      features_shape_at features 0 = Ok n →
      np.shape_at labels 0 = Ok n →
      outcome (call (Some 0%Z)) = Ok tt
      ∧ length (records (trace (call (Some 0%Z)))) = n
      ∧ (0 < n → ∀ max, 0 < length (records (trace (call max)))).
Proof.
  intros call. split; [by apply convert_limit_ext|].
  intros n Hw Hn Hn'. subst call. cbn beta.
  destruct (convert_writable filepath metadata features labels D_info
              num_shards n Hw Hn Hn') as (rows & exs & _ & _ & _ & _ & Hcall).
  cbn zeta in Hcall. split_and!.
  - destruct (Hcall (Some 0%Z)) as (-> & _). done.
  - destruct (Hcall (Some 0%Z)) as (_ & _ & -> & _).
    by apply iterations_falsy.
  - intros Hpos max. destruct (Hcall max) as (_ & _ & -> & _).
    by apply iterations_positive.
Qed.

Lemma zero_limit_is_no_limit_witness :
  length (records (trace (convert_vectors_to_sequence_example toy.filepath
            (toy.metadata "train" 3 1) toy.features3 toy.labels3
            toy.info_dense (Some 0%Z) 1))) = 3.
Proof.
  refine (proj1 (proj2 (proj2 (zero_limit_is_no_limit toy.filepath
            (toy.metadata "train" 3 1) toy.features3 toy.labels3
            toy.info_dense 1) 3 _ _ _))); [|reflexivity..].
  by apply toy_writable3.
Defined.

(** C3 (as the code has it): with a limit [k] of at least 1 and less than
    the number [n] of rows of a writable split, the call ends well, the
    examples written are those of the first [k] rows in the order of the
    matrix, and the sidecar gives [k] as its sample count; without a limit
    all [n] rows are written and the sidecar gives [n]. *)
Theorem limit_truncates_to_first_rows filepath metadata features labels
    D_info num_shards (n : nat) (k : Z) :
  writable (sequence_size metadata) features labels →
  features_shape_at features 0 = Ok n →
  np.shape_at labels 0 = Ok n →
  (1 ≤ k < Z.of_nat n)%Z →
  let call max :=
    convert_vectors_to_sequence_example filepath metadata features labels
      D_info max num_shards in
  ∃ rows exs,
    zip_rows features labels = Ok rows ∧ length rows = n
    ∧ encode_examples (bool_decide (set_type metadata = "test"))
        (sequence_size metadata) (id_offset metadata D_info) rows 0 = Ok exs
    ∧ outcome (call (Some k)) = Ok tt
    ∧ records (trace (call (Some k))) = take (Z.to_nat k) exs
    ∧ length (records (trace (call (Some k)))) = Z.to_nat k
    ∧ text_written (metadata_path filepath) (trace (call (Some k)))
      = Some (sidecar k metadata D_info)
    ∧ outcome (call None) = Ok tt
    ∧ records (trace (call None)) = exs
    ∧ length (records (trace (call None))) = n
    ∧ text_written (metadata_path filepath) (trace (call None))
      = Some (sidecar (Z.of_nat n) metadata D_info).
Proof.
  intros Hw Hn Hn' Hk call. subst call. cbn beta.
  destruct (convert_writable filepath metadata features labels D_info
              num_shards n Hw Hn Hn')
    as (rows & exs & Hrows & Hlen & Hexs & Hlen' & Hcall).
  cbn zeta in Hcall. exists rows, exs.
  assert (Hit : iterations (Some k) 0 n = Z.to_nat k).
  { rewrite iterations_limit by lia. rewrite Z.sub_0_r. lia. }
  assert (Hit' : iterations None 0 n = n) by by apply iterations_falsy.
  destruct (Hcall (Some k)) as (Ek & Rk & Lk & Tk).
  destruct (Hcall None) as (E0 & R0 & L0 & T0).
  rewrite Hit in Rk, Lk, Tk. rewrite Hit' in R0, L0, T0.
  rewrite Z2Nat.id in Tk by lia.
  rewrite <- Hlen', firstn_all in R0.
  split_and!; try done.
  - by rewrite Ek.
  - by rewrite E0.
Qed.

Lemma limit_truncates_to_first_rows_witness :
  ∃ rows exs,
    zip_rows toy.features3 toy.labels3 = Ok rows ∧ length rows = 3
    ∧ encode_examples false 1 3 rows 0 = Ok exs
    ∧ outcome (convert_vectors_to_sequence_example toy.filepath
                 (toy.metadata "train" 3 1) toy.features3 toy.labels3
                 toy.info_dense (Some 2%Z) 1) = Ok tt
    ∧ records (trace (convert_vectors_to_sequence_example toy.filepath
                 (toy.metadata "train" 3 1) toy.features3 toy.labels3
                 toy.info_dense (Some 2%Z) 1)) = take 2 exs
    ∧ length (records (trace (convert_vectors_to_sequence_example
                 toy.filepath (toy.metadata "train" 3 1) toy.features3
                 toy.labels3 toy.info_dense (Some 2%Z) 1))) = 2
    ∧ text_written (metadata_path toy.filepath)
        (trace (convert_vectors_to_sequence_example toy.filepath
                  (toy.metadata "train" 3 1) toy.features3 toy.labels3
                  toy.info_dense (Some 2%Z) 1))
      = Some (sidecar 2 (toy.metadata "train" 3 1) toy.info_dense)
    ∧ outcome (convert_vectors_to_sequence_example toy.filepath
                 (toy.metadata "train" 3 1) toy.features3 toy.labels3
                 toy.info_dense None 1) = Ok tt
    ∧ records (trace (convert_vectors_to_sequence_example toy.filepath
                 (toy.metadata "train" 3 1) toy.features3 toy.labels3
                 toy.info_dense None 1)) = exs
    ∧ length (records (trace (convert_vectors_to_sequence_example
                 toy.filepath (toy.metadata "train" 3 1) toy.features3
                 toy.labels3 toy.info_dense None 1))) = 3
    ∧ text_written (metadata_path toy.filepath)
        (trace (convert_vectors_to_sequence_example toy.filepath
                  (toy.metadata "train" 3 1) toy.features3 toy.labels3
                  toy.info_dense None 1))
      = Some (sidecar 3 (toy.metadata "train" 3 1) toy.info_dense).
Proof.
  apply (limit_truncates_to_first_rows toy.filepath
           (toy.metadata "train" 3 1) toy.features3 toy.labels3
           toy.info_dense 1 3 2).
  - by apply toy_writable3.
  - reflexivity.
  - reflexivity.
  - lia.
Defined.

(** C3 fails for the limit 0, which is less than the row count 3: all
    three examples are written and the sidecar gives 3 as its sample
    count. *)
Lemma limit_zero_truncates_nothing :
  (0 < 3)%Z
  ∧ length (records (trace (convert_vectors_to_sequence_example toy.filepath
              (toy.metadata "train" 3 1) toy.features3 toy.labels3
              toy.info_dense (Some 0%Z) 1))) = 3
  ∧ text_written (metadata_path toy.filepath)
      (trace (convert_vectors_to_sequence_example toy.filepath
                (toy.metadata "train" 3 1) toy.features3 toy.labels3
                toy.info_dense (Some 0%Z) 1))
    = Some (sidecar_text "3" "1" "2" "2" "1" "1" "DENSE").
Proof. split; [lia|]. split; vm_compute; reflexivity. Qed.

(** ** Sparse features with a sequence size other than 1 *)

Lemma sparse_first_row_raises is_test_set sequence_size id_translation
    counter r label_row (k : nat) :
  sequence_size ≠ 1%Z → np.shape label_row = [k] →
  sequence_example_of_row is_test_set sequence_size id_translation counter
    (SparseRow r) label_row
  = Raise (NotImplementedError sparse_sequence_message).
Proof.
  intros Hseq Hk. unfold sequence_example_of_row.
  assert (Hlab : ∃ li ls,
    (if is_test_set
     then mret (_int64_feature [], _float_feature [])
     else dense_to_sparse_label label_row
          ≫= λ '(label_indexes, label_scores),
               mret (_int64_feature label_indexes,
                     _float_feature label_scores))
    = Ok (li, ls)).
  { destruct is_test_set; [by eexists _, _|].
    unfold dense_to_sparse_label, entries_1d. rewrite Hk.
    cbn [mbind result_bind mret result_ret].
    destruct (dense_to_sparse_from 0 (np.data label_row)). by eexists _, _. }
  destruct Hlab as (li & ls & ->). cbn [mbind result_bind].
  by rewrite bool_decide_eq_true_2.
Qed.

(** C2 (as the code has it): a sparse feature matrix with at least one
    row, a label matrix with at least one row and a sequence size other
    than 1 make the call fail with the [NotImplementedError] of the
    source, at the first row: no example is written and no sidecar; the
    record file has been created by then, and the solution file written
    when the split is the test split. *)
Theorem sparse_sequence_rejected_at_first_row filepath metadata m labels
    D_info max num_shards (n k : nat) :
  sequence_size metadata ≠ 1%Z →
  sp.rows m ≠ [] →
  np.shape labels = [n; k] →
  0 < n →
  let call :=
    convert_vectors_to_sequence_example filepath metadata (Sparse m) labels
      D_info max num_shards in
  call
  = IO (solution_events filepath metadata labels
        ++ [TFRecordWriter_open filepath; TFRecordWriter_close])
       (Raise (NotImplementedError sparse_sequence_message))
  ∧ records (trace call) = []
  ∧ text_written (metadata_path filepath) (trace call) = None
  ∧ record_file_created (trace call) = true
  ∧ solution_written (trace call) = bool_decide (set_type metadata = "test").
Proof.
  intros Hseq Hrows Hshape Hn call.
  assert (Hcall : call
    = IO (solution_events filepath metadata labels
          ++ [TFRecordWriter_open filepath; TFRecordWriter_close])
         (Raise (NotImplementedError sparse_sequence_message))).
  { subst call. rewrite convert_unfold
      by (intros _; right; unfold np.ndim; by rewrite Hshape).
    destruct (sp.rows m) as [|r rs] eqn:Hm; [done|].
    destruct n as [|n]; [lia|].
    erewrite convert_body_rows; last first.
    { unfold zip_rows, features_iter, np.iter. rewrite Hm, Hshape.
      cbn [mbind result_bind mret result_ret np.chunks fmap list_fmap zip
           zip_with]. reflexivity. }
    by erewrite write_examples_cons_raise
      by (by eapply sparse_first_row_raises). }
  rewrite Hcall. cbn [trace]. unfold solution_events.
  case_bool_decide; split_and!; done.
Qed.

Lemma sparse_sequence_rejected_at_first_row_witness :
  convert_vectors_to_sequence_example toy.filepath (toy.metadata "train" 1 2)
    toy.sparse1 toy.labels1 toy.info_sparse None 1
  = IO [TFRecordWriter_open toy.filepath; TFRecordWriter_close]
       (Raise (NotImplementedError sparse_sequence_message)).
Proof.
  refine (proj1 (sparse_sequence_rejected_at_first_row toy.filepath
            (toy.metadata "train" 1 2) (sp.mk 2 [sp.mk_row [0%Z] [1%Q]])
            toy.labels1 toy.info_sparse None 1 1 2 _ _ _ _)).
  - discriminate.
  - discriminate.
  - reflexivity.
  - lia.
Defined.

(** C2 fails: on the test split of one sparse example with a sequence
    size of 2 the call does fail, but only after the solution file has
    been written and the record file created; and with no row at all the
    same call does not fail, it writes an empty record file and a
    sidecar. *)
Lemma sparse_sequence_fails_after_io :
  convert_vectors_to_sequence_example toy.filepath (toy.metadata "test" 1 2)
    toy.sparse1 toy.labels1 toy.info_sparse None 1
  = IO [np_savetxt
          (os_path_join (os_path_abspath (os_path_dirname toy.filepath))
             "toy.solution")
          toy.labels1 "%.1f";
        TFRecordWriter_open toy.filepath;
        TFRecordWriter_close]
       (Raise (NotImplementedError sparse_sequence_message))
  ∧ convert_vectors_to_sequence_example toy.filepath (toy.metadata "train" 0 2)
      (Sparse (sp.mk 2 [])) (np.matrix 2 []) toy.info_sparse None 1
    = IO [TFRecordWriter_open toy.filepath;
          TFRecordWriter_close;
          write_text (metadata_path toy.filepath)
            (sidecar_text "0" "2" "2" "2" "1" "1" "SPARSE")]
         (Ok tt).
Proof. split; vm_compute; reflexivity. Qed.

(** ** Preparing a split *)

Lemma split_set_type D set_type r :
  split_features_and_labels D set_type = Ok r →
  set_type = "train" ∨ set_type = "test".
Proof.
  unfold split_features_and_labels.
  case_bool_decide; [by left|]. case_bool_decide; [by right|done].
Qed.

(** The preparation once the split is fetched and its labels normalised. *)
Lemma prepare_unfold D set_type s r c ch features labels labels' :
  split_features_and_labels D set_type = Ok (features, labels) →
  normalize_labels (task (info D)) labels = Ok labels' →
  _prepare_metadata_features_and_labels D set_type s r c ch
  = '(s, r, c, ch) ← resolve_shape features s r c ch;
    match s, r, c, ch with
    | Some s', Some r', Some c', Some ch' =>
        num_features ← features_shape_at features 1;
        if bool_decide (Z.of_nat num_features ≠ s' * r' * c' * ch')%Z then
          Raise (ValueError (incompatible_shape_message s r c ch
                               (s' * r' * c' * ch') (Z.of_nat num_features)))
        else
          num_examples ← features_shape_at features 0;
          num_classes ← np.shape_at labels' 1;
          Ok (mk_metadata (name (info D)) (Z.of_nat num_examples)
                (Z.of_nat num_classes) set_type c' r' s' ch',
              features, labels')
    | _, _, _, _ => Raise (ValueError (missing_shape_message s r c ch))
    end.
Proof.
  intros Hsplit Hnorm. unfold _prepare_metadata_features_and_labels.
  cbn zeta. rewrite Hsplit. cbn [mbind result_bind]. rewrite Hnorm.
  cbn [mbind result_bind].
  destruct (resolve_shape features s r c ch) as [[[[s1 r1] c1] ch1]|];
    [|done].
  cbn [mbind result_bind].
  destruct s1 as [s'|], r1 as [r'|], c1 as [c'|], ch1 as [ch'|]; try done.
  destruct (features_shape_at features 1) as [w|]; [|done].
  cbn [mbind result_bind]. case_bool_decide; [done|].
  destruct (features_shape_at features 0) as [n|]; [|done].
  cbn [mbind result_bind].
  destruct (np.shape_at labels' 1) as [k|]; [|done].
  cbn [mbind result_bind]. unfold AutoMLMetadata_init.
  destruct (split_set_type _ _ _ Hsplit) as [->| ->]; done.
Qed.

(** What a successful preparation returns comes from the split. *)
Lemma prepare_inv D split s r c ch metadata features labels' :
  _prepare_metadata_features_and_labels D split s r c ch
    = Ok (metadata, features, labels') →
  ∃ labels,
    split_features_and_labels D split = Ok (features, labels)
    ∧ normalize_labels (task (info D)) labels = Ok labels'
    ∧ features_shape_at features 0 = Ok (Z.to_nat (sample_count metadata))
    ∧ features_shape_at features 1
      = Ok (Z.to_nat (sequence_size metadata * row_count metadata
                      * col_count metadata * num_channels metadata))
    ∧ split = set_type metadata.
Proof.
  destruct (split_features_and_labels D split) as [[f l]|] eqn:Hsplit;
    [|by unfold _prepare_metadata_features_and_labels; rewrite Hsplit].
  destruct (normalize_labels (task (info D)) l) as [l'|] eqn:Hnorm;
    [|by unfold _prepare_metadata_features_and_labels;
        rewrite Hsplit; cbn; rewrite Hnorm].
  rewrite (prepare_unfold _ _ _ _ _ _ _ _ _ Hsplit Hnorm).
  destruct (resolve_shape f s r c ch) as [[[[s1 r1] c1] ch1]|]; [|done].
  cbn [mbind result_bind].
  destruct s1 as [s'|], r1 as [r'|], c1 as [c'|], ch1 as [ch'|]; try done.
  destruct (features_shape_at f 1) as [w|] eqn:Hw; [|done].
  cbn [mbind result_bind]. case_bool_decide as Hne; [done|].
  destruct (features_shape_at f 0) as [n|] eqn:Hn; [|done].
  cbn [mbind result_bind].
  destruct (np.shape_at l' 1) as [k|]; [|done].
  cbn [mbind result_bind]. intros [= <- <- <-]. exists l.
  cbn [sample_count sequence_size row_count col_count num_channels
       set_type].
  split_and!; [done..| | |done].
  - by rewrite Hn, Nat2Z.id.
  - rewrite Hw. f_equal. lia.
Qed.

(** ** The whole dataset: the order of the effects *)

Section Orchestrator.

Variables (FLAGS : Flags) (D : DataManager).
Variables (input_dir dataset_name output_dir : string).
Variables (max_train max_test : option Z) (shards_train shards_test : Z).
Variable (new_dataset_name : option string).

Local Abbreviation run :=
  (press_a_button_and_give_me_an_AutoDL_dataset FLAGS D input_dir
     dataset_name output_dir max_train max_test shards_train shards_test
     new_dataset_name).
Local Abbreviation prepare set_type :=
  (_prepare_metadata_features_and_labels D set_type
     (FLAGS_sequence_size FLAGS) (FLAGS_row_count FLAGS)
     (FLAGS_col_count FLAGS) (FLAGS_num_channels FLAGS)).
Local Abbreviation new_name :=
  (formatted_name dataset_name max_train max_test new_dataset_name).
Local Abbreviation first_events :=
  [mkdir_if_absent (dataset_dir output_dir new_name);
   mkdir_if_absent (dataset_data_dir output_dir new_name);
   mkdir_if_absent (split_dir output_dir new_name "test")].
Local Abbreviation convert_split set_type metadata features labels max :=
  (convert_vectors_to_sequence_example
     (record_path output_dir new_name dataset_name set_type)
     metadata features labels (info D) max 1).

Lemma run_unfold :
  run
  = (emit (mkdir_if_absent (dataset_dir output_dir new_name));;
    emit (mkdir_if_absent (dataset_data_dir output_dir new_name));;
    emit (mkdir_if_absent (split_dir output_dir new_name "test"));;
    '(metadata, features, labels) ← lift (prepare "test");
    convert_split "test" metadata features labels max_test;;
    emit (mkdir_if_absent (split_dir output_dir new_name "train"));;
    '(metadata, features, labels) ← lift (prepare "train");
    convert_split "train" metadata features labels max_train;;
    IO (closing_events input_dir dataset_name output_dir new_name)
       (Ok (dataset_dir output_dir new_name, new_name))).
Proof. reflexivity. Qed.

(** A test split that is refused stops the run after the directories. *)
Lemma run_test_refused e :
  prepare "test" = Raise e → run = IO first_events (Raise e).
Proof.
  intros H. rewrite run_unfold.
  apply (bind_ok_eq _ _ [_] tt [_; _]); [done|].
  apply (bind_ok_eq _ _ [_] tt [_]); [done|].
  apply (bind_ok_eq _ _ [_] tt []); [done|].
  by rewrite H.
Qed.

(** A training split that is refused stops the run before anything is
    written for it. *)
Lemma run_train_refused mt ft lt e :
  prepare "test" = Ok (mt, ft, lt) →
  outcome (convert_split "test" mt ft lt max_test) = Ok tt →
  prepare "train" = Raise e →
  run = IO (first_events
            ++ trace (convert_split "test" mt ft lt max_test)
            ++ [mkdir_if_absent (split_dir output_dir new_name "train")])
           (Raise e).
Proof.
  intros Ht Hc Hn. rewrite run_unfold.
  apply (bind_ok_eq _ _ [_] tt); [done|].
  apply (bind_ok_eq _ _ [_] tt); [done|].
  apply (bind_ok_eq _ _ [_] tt); [done|].
  rewrite Ht, lift_ok_bind. cbn beta iota.
  apply (bind_ok_eq _ _ _ tt); [by apply outcome_ok_eta|].
  apply (bind_ok_eq _ _ [_] tt []); [done|].
  by rewrite Hn.
Qed.

(** A run whose two splits are written to their end. *)
Lemma run_ok mt ft lt mn fn ln :
  prepare "test" = Ok (mt, ft, lt) →
  outcome (convert_split "test" mt ft lt max_test) = Ok tt →
  prepare "train" = Ok (mn, fn, ln) →
  outcome (convert_split "train" mn fn ln max_train) = Ok tt →
  run = IO (first_events
            ++ trace (convert_split "test" mt ft lt max_test)
            ++ mkdir_if_absent (split_dir output_dir new_name "train")
               :: trace (convert_split "train" mn fn ln max_train)
            ++ closing_events input_dir dataset_name output_dir new_name)
           (Ok (dataset_dir output_dir new_name, new_name)).
Proof.
  intros Ht Hc Hn Hc'. rewrite run_unfold.
  apply (bind_ok_eq _ _ [_] tt); [done|].
  apply (bind_ok_eq _ _ [_] tt); [done|].
  apply (bind_ok_eq _ _ [_] tt); [done|].
  rewrite Ht, lift_ok_bind. cbn beta iota.
  apply (bind_ok_eq _ _ _ tt); [by apply outcome_ok_eta|].
  apply (bind_ok_eq _ _ [_] tt); [done|].
  rewrite Hn, lift_ok_bind. cbn beta iota.
  apply (bind_ok_eq _ _ _ tt); [by apply outcome_ok_eta|].
  done.
Qed.

End Orchestrator.

(** ** The examples of one record file *)

Lemma records_from_writes p (writing : bool) exs rest :
  records_from p writing ((TFRecordWriter_write <$> exs) ++ rest)
  = (if writing then exs else []) ++ records_from p writing rest.
Proof.
  induction exs as [|ex exs IH]; cbn; [by destruct writing|].
  rewrite IH. by destruct writing.
Qed.

(** The trace of a split written to its end, followed by [rest]. *)
Lemma records_from_split p writing filepath metadata labels exs text rest :
  records_from p writing
    ((solution_events filepath metadata labels
      ++ TFRecordWriter_open filepath :: (TFRecordWriter_write <$> exs)
      ++ [TFRecordWriter_close; text]) ++ rest)
  = (if bool_decide (filepath = p) then exs else [])
    ++ records_from p false (text :: rest).
Proof.
  rewrite <- app_assoc. unfold solution_events.
  case_bool_decide; cbn [app records_from];
    rewrite <- app_assoc, records_from_writes; done.
Qed.

Lemma record_path_test_train output_dir new_name dataset_name :
  record_path output_dir new_name dataset_name "test"
  ≠ record_path output_dir new_name dataset_name "train".
Proof. unfold record_path, split_dir. intros [= H]. Qed.

Lemma ids_of_first_examples is_test_set sequence_size id_translation rows exs
    (k : nat) :
  encode_examples is_test_set sequence_size id_translation rows 0 = Ok exs →
  k ≤ length rows →
  example_id <$> take k exs = Some <$> seqZ id_translation (Z.of_nat k).
Proof.
  intros Hexs Hk.
  rewrite (encode_examples_ids _ _ _ _ _ _
             (encode_examples_take _ _ _ _ _ _ k Hexs)).
  rewrite length_take, Z.add_0_l. do 3 f_equal. lia.
Qed.

(** C1 (as the code has it): each identifier is the row index plus the
    offset of the split, 0 for the test split and [D.info['test_num']] for
    the train split, whatever the number of test examples written. So for a
    run that writes [T] test examples and [N] train examples the test
    identifiers are 0, ..., T-1 and the train identifiers are test_num,
    ..., test_num+N-1; the two are disjoint when [T ≤ test_num], and the
    train identifiers are T, ..., T+N-1 when [test_num = T]. *)
Theorem train_ids_offset_by_test_num FLAGS D input_dir dataset_name output_dir
    max_train max_test shards_train shards_test new_dataset_name
    mt ft lt mn fn ln (rows_test rows_train : nat) :
  let prepare set_type :=
    _prepare_metadata_features_and_labels D set_type
      (FLAGS_sequence_size FLAGS) (FLAGS_row_count FLAGS)
      (FLAGS_col_count FLAGS) (FLAGS_num_channels FLAGS) in
  prepare "test" = Ok (mt, ft, lt) →
  prepare "train" = Ok (mn, fn, ln) →
  writable (sequence_size mt) ft lt →
  writable (sequence_size mn) fn ln →
  features_shape_at ft 0 = Ok rows_test →
  np.shape_at lt 0 = Ok rows_test →
  features_shape_at fn 0 = Ok rows_train →
  np.shape_at ln 0 = Ok rows_train →
  let run :=
    press_a_button_and_give_me_an_AutoDL_dataset FLAGS D input_dir
      dataset_name output_dir max_train max_test shards_train shards_test
      new_dataset_name in
  let new_name :=
    formatted_name dataset_name max_train max_test new_dataset_name in
  let ids set_type :=
    example_id
      <$> records_of (record_path output_dir new_name dataset_name set_type)
            (trace run) in
  let T := iterations max_test 0 rows_test in
  let N := iterations max_train 0 rows_train in
  outcome run = Ok (dataset_dir output_dir new_name, new_name)
  ∧ ids "test" = Some <$> seqZ 0 (Z.of_nat T)
  ∧ ids "train" = Some <$> seqZ (test_num (info D)) (Z.of_nat N)
  ∧ T ≤ rows_test
  ∧ (truthy max_test = false → T = rows_test)
  ∧ ((Z.of_nat T ≤ test_num (info D))%Z →
     ∀ i, i ∈ ids "test" → i ∉ ids "train")
  ∧ (test_num (info D) = Z.of_nat T →
     ids "train" = Some <$> seqZ (Z.of_nat T) (Z.of_nat N)).
Proof.
  intros prepare Ht Hn Hwt Hwn Hft Hlt Hfn Hln run new_name ids T N.
  destruct (prepare_inv _ _ _ _ _ _ _ _ _ Ht) as (_ & _ & _ & _ & _ & Hst).
  destruct (prepare_inv _ _ _ _ _ _ _ _ _ Hn) as (_ & _ & _ & _ & _ & Hsn).
  destruct (convert_writable
              (record_path output_dir new_name dataset_name "test")
              mt ft lt (info D) 1 rows_test Hwt Hft Hlt)
    as (rt & et & _ & Hrt & Het & _ & Hct).
  destruct (convert_writable
              (record_path output_dir new_name dataset_name "train")
              mn fn ln (info D) 1 rows_train Hwn Hfn Hln)
    as (rn & en & _ & Hrn & Hen & _ & Hcn).
  cbn zeta in Hct, Hcn.
  destruct (Hct max_test) as (Ect & _). destruct (Hcn max_train) as (Ecn & _).
  assert (Hrun := run_ok FLAGS D input_dir dataset_name output_dir max_train
                    max_test shards_train shards_test new_dataset_name
                    mt ft lt mn fn ln Ht (f_equal outcome Ect) Hn
                    (f_equal outcome Ecn)).
  fold run new_name in Hrun.
  assert (Hoff_t : id_offset mt (info D) = 0%Z).
  { unfold id_offset. by rewrite <- Hst. }
  assert (Hoff_n : id_offset mn (info D) = test_num (info D)).
  { unfold id_offset. by rewrite <- Hsn. }
  rewrite Hoff_t in Het. rewrite Hoff_n in Hen.
  assert (HT : T ≤ rows_test) by apply iterations_le.
  assert (HN : N ≤ rows_train) by apply iterations_le.
  assert (Htest : ids "test" = Some <$> seqZ 0 (Z.of_nat T)).
  { subst ids. cbn beta. rewrite Hrun. cbn [trace]. unfold records_of.
    cbn [app records_from]. rewrite Ect. cbn [trace].
    rewrite records_from_split, bool_decide_eq_true_2 by done.
    cbn [records_from]. rewrite Ecn. cbn [trace].
    rewrite records_from_split,
      bool_decide_eq_false_2
      by (intros H; symmetry in H; by apply record_path_test_train in H).
    cbn. rewrite app_nil_r.
    eapply ids_of_first_examples; [exact Het|]. lia. }
  assert (Htrain : ids "train"
                   = Some <$> seqZ (test_num (info D)) (Z.of_nat N)).
  { subst ids. cbn beta. rewrite Hrun. cbn [trace]. unfold records_of.
    cbn [app records_from]. rewrite Ect. cbn [trace].
    rewrite records_from_split,
      bool_decide_eq_false_2 by apply record_path_test_train.
    cbn [records_from app]. rewrite Ecn. cbn [trace].
    rewrite records_from_split, bool_decide_eq_true_2 by done.
    cbn. rewrite app_nil_r.
    eapply ids_of_first_examples; [exact Hen|]. lia. }
  split_and!; [by rewrite Hrun|done|done|done| | |].
  - intros Hfalsy. by apply iterations_falsy.
  - intros Hle i. rewrite Htest, Htrain.
    intros (j & -> & Hj)%list_elem_of_fmap
      (j' & [= <-] & Hj')%list_elem_of_fmap.
    apply elem_of_seqZ in Hj, Hj'. lia.
  - intros <-. exact Htrain.
Qed.

Lemma toy_writable2 : writable 1 toy.features2 toy.labels2.
Proof. split; [by exists 2, 2|]. exists 2, 2. split; [done|by left]. Defined.

Lemma train_ids_offset_by_test_num_witness :
  example_id
    <$> records_of (record_path "out" "toy" "toy" "test")
          (trace (press_a_button_and_give_me_an_AutoDL_dataset toy.no_flags
                    toy.D "in" "toy" "out" None None 1 1 None))
  = Some <$> seqZ 0 3
  ∧ example_id
      <$> records_of (record_path "out" "toy" "toy" "train")
            (trace (press_a_button_and_give_me_an_AutoDL_dataset toy.no_flags
                      toy.D "in" "toy" "out" None None 1 1 None))
    = Some <$> seqZ 3 2.
Proof.
  pose proof (train_ids_offset_by_test_num toy.no_flags toy.D "in" "toy" "out"
                None None 1 1 None
                (mk_metadata "toy" 3 2 "test" 2 1 1 1) toy.features3
                toy.labels3
                (mk_metadata "toy" 2 2 "train" 2 1 1 1) toy.features2
                toy.labels2 3 2 eq_refl eq_refl (toy_writable3 1 eq_refl)
                toy_writable2 eq_refl eq_refl eq_refl eq_refl)
    as (_ & Htest & Htrain & _).
  split; [exact Htest|exact Htrain].
Defined.

(** C1 fails when the test split is truncated: with three test examples
    of which two are written ([T = 2]) and two train examples, the train
    identifiers are 3 and 4, not 2 and 3. *)
Lemma truncated_test_leaves_gap_in_ids :
  example_id
    <$> records_of (record_path "out" "toy_2" "toy" "test")
          (trace (press_a_button_and_give_me_an_AutoDL_dataset toy.no_flags
                    toy.D "in" "toy" "out" None (Some 2%Z) 1 1 None))
  = [Some 0%Z; Some 1%Z]
  ∧ example_id
      <$> records_of (record_path "out" "toy_2" "toy" "train")
            (trace (press_a_button_and_give_me_an_AutoDL_dataset toy.no_flags
                      toy.D "in" "toy" "out" None (Some 2%Z) 1 1 None))
    = [Some 3%Z; Some 4%Z]
  ∧ [Some 3%Z; Some 4%Z] ≠ Some <$> seqZ 2 2.
Proof. split_and!; [vm_compute; reflexivity..|discriminate]. Qed.

(** ** The shape of the examples *)

(** C8: when none of the four shape components is given, the shape is
    resolved to [(1, 1, width, 1)] for the width of the feature matrix,
    whatever it is, and the preparation accepts it: it returns the metadata
    with that shape together with the features and the normalised
    labels. *)
Theorem default_shape_accepted D set_type features labels labels'
    (n w k : nat) :
  split_features_and_labels D set_type = Ok (features, labels) →
  normalize_labels (task (info D)) labels = Ok labels' →
  features_shape_at features 0 = Ok n →
  features_shape_at features 1 = Ok w →
  np.shape_at labels' 1 = Ok k →
  resolve_shape features None None None None
    = Ok (Some 1%Z, Some 1%Z, Some (Z.of_nat w), Some 1%Z)
  ∧ _prepare_metadata_features_and_labels D set_type None None None None
    = Ok (mk_metadata (name (info D)) (Z.of_nat n) (Z.of_nat k) set_type
            (Z.of_nat w) 1 1 1,
          features, labels').
Proof.
  intros Hsplit Hnorm Hn Hw Hk.
  assert (Hres : resolve_shape features None None None None
                 = Ok (Some 1%Z, Some 1%Z, Some (Z.of_nat w), Some 1%Z)).
  { unfold resolve_shape. by rewrite Hw. }
  split; [done|].
  rewrite (prepare_unfold _ _ _ _ _ _ _ _ _ Hsplit Hnorm), Hres.
  cbn [mbind result_bind]. rewrite Hw. cbn [mbind result_bind].
  rewrite bool_decide_eq_false_2 by lia.
  by rewrite Hn, Hk.
Qed.

Lemma default_shape_accepted_witness :
  _prepare_metadata_features_and_labels toy.D "test" None None None None
  = Ok (mk_metadata "toy" 3 2 "test" 2 1 1 1, toy.features3, toy.labels3).
Proof.
  exact (proj2 (default_shape_accepted toy.D "test" toy.features3 toy.labels3
                  toy.labels3 3 2 2 eq_refl eq_refl eq_refl eq_refl eq_refl)).
Defined.

Lemma append_assoc (a b c : string) : (a +:+ b) +:+ c = a +:+ (b +:+ c).
Proof.
  induction a as [|x a IH]; [done|].
  change (String x ((a +:+ b) +:+ c) = String x (a +:+ (b +:+ c))).
  by rewrite IH.
Qed.

(** The message of the mismatch names the product and the width. *)
Lemma incompatible_shape_message_reports s r c ch (num_entries
    num_features : Z) :
  let message :=
    incompatible_shape_message s r c ch num_entries num_features in
  occurs_in ("with " +:+ str num_entries +:+ " entries") message
  ∧ occurs_in ("num_features = " +:+ str num_features) message.
Proof.
  cbn zeta. unfold incompatible_shape_message. split.
  - exists ("Incompatible metadata with data shape! " +:+
            "The shape specified in metadata is" +:+ nl +:+
            "(sequence_size, row_count, col_count, num_channels) = " +:+
            str_shape s r c ch +:+ nl),
      (" but got num_features = " +:+ str num_features +:+ " " +:+
       "!= " +:+ str num_entries +:+ " !" +:+ nl +:+
       "Please specify good metadata in the command arguments.").
    by rewrite !append_assoc.
  - exists ("Incompatible metadata with data shape! " +:+
            "The shape specified in metadata is" +:+ nl +:+
            "(sequence_size, row_count, col_count, num_channels) = " +:+
            str_shape s r c ch +:+ nl +:+
            "with " +:+ str num_entries +:+ " entries " +:+ "but got "),
      (" " +:+ "!= " +:+ str num_entries +:+ " !" +:+ nl +:+
       "Please specify good metadata in the command arguments.").
    by rewrite !append_assoc.
Qed.

(** C7: when the four shape components are given and their product
    differs from the width of the feature matrix, the preparation fails
    with the [ValueError] whose message reports the product and the width;
    a preparation that succeeds has a product equal to the width and
    returns the given shape. The preparation has no effect of its own, and
    the run writes a split only after preparing it: a mismatch on the test
    split ends the run with no record file, no solution file and no
    example; a mismatch on the train split ends it before anything is
    written for that split. *)
Theorem shape_mismatch_rejected D set_type features labels labels' (w : nat)
    (s r c ch : Z) :
  split_features_and_labels D set_type = Ok (features, labels) →
  normalize_labels (task (info D)) labels = Ok labels' →
  features_shape_at features 1 = Ok w →
  let FLAGS := mk_flags (Some s) (Some r) (Some c) (Some ch) in
  let call :=
    _prepare_metadata_features_and_labels D set_type (Some s) (Some r)
      (Some c) (Some ch) in
  let message :=
    incompatible_shape_message (Some s) (Some r) (Some c) (Some ch)
      (s * r * c * ch) (Z.of_nat w) in
  ((s * r * c * ch)%Z ≠ Z.of_nat w →
     call = Raise (ValueError message)
     ∧ occurs_in ("with " +:+ str (s * r * c * ch) +:+ " entries") message
     ∧ occurs_in ("num_features = " +:+ str (Z.of_nat w)) message
     ∧ (set_type = "test" →
        ∀ input_dir dataset_name output_dir max_train max_test shards_train
          shards_test new_dataset_name,
          let run :=
            press_a_button_and_give_me_an_AutoDL_dataset FLAGS D input_dir
              dataset_name output_dir max_train max_test shards_train
              shards_test new_dataset_name in
          outcome run = Raise (ValueError message)
          ∧ records (trace run) = []
          ∧ record_file_created (trace run) = false
          ∧ solution_written (trace run) = false)
     ∧ (set_type = "train" →
        ∀ input_dir dataset_name output_dir max_train max_test shards_train
          shards_test new_dataset_name mt ft lt,
          let new_name :=
            formatted_name dataset_name max_train max_test new_dataset_name in
          let test_call :=
            convert_vectors_to_sequence_example
              (record_path output_dir new_name dataset_name "test")
              mt ft lt (info D) max_test 1 in
          _prepare_metadata_features_and_labels D "test" (Some s) (Some r)
            (Some c) (Some ch) = Ok (mt, ft, lt) →
          outcome test_call = Ok tt →
          press_a_button_and_give_me_an_AutoDL_dataset FLAGS D input_dir
            dataset_name output_dir max_train max_test shards_train
            shards_test new_dataset_name
          = IO ([mkdir_if_absent (dataset_dir output_dir new_name);
                 mkdir_if_absent (dataset_data_dir output_dir new_name);
                 mkdir_if_absent (split_dir output_dir new_name "test")]
                ++ trace test_call
                ++ [mkdir_if_absent (split_dir output_dir new_name "train")])
               (Raise (ValueError message))))
  ∧ (∀ metadata f l, call = Ok (metadata, f, l) →
       (s * r * c * ch)%Z = Z.of_nat w
       ∧ sequence_size metadata = s ∧ row_count metadata = r
       ∧ col_count metadata = c ∧ num_channels metadata = ch
       ∧ f = features ∧ l = labels').
Proof.
  intros Hsplit Hnorm Hw FLAGS call message.
  assert (Hcall : call
    = if bool_decide (Z.of_nat w ≠ s * r * c * ch)%Z
      then Raise (ValueError message)
      else
        num_examples ← features_shape_at features 0;
        num_classes ← np.shape_at labels' 1;
        Ok (mk_metadata (name (info D)) (Z.of_nat num_examples)
              (Z.of_nat num_classes) set_type c r s ch, features, labels')).
  { subst call. rewrite (prepare_unfold _ _ _ _ _ _ _ _ _ Hsplit Hnorm).
    cbn [resolve_shape mbind result_bind mret result_ret]. by rewrite Hw. }
  split.
  - intros Hne.
    assert (Hraise : call = Raise (ValueError message)).
    { rewrite Hcall. by rewrite bool_decide_eq_true_2. }
    destruct (incompatible_shape_message_reports (Some s) (Some r) (Some c)
                (Some ch) (s * r * c * ch) (Z.of_nat w)) as [Hp Hf].
    split_and!; [done..| |].
    + intros -> *. subst run.
      by rewrite (run_test_refused FLAGS D _ _ _ _ _ _ _ _ _ Hraise).
    + intros -> * Ht Hc.
      exact (run_train_refused FLAGS D _ _ _ _ _ _ _ _ _ _ _ _ Ht Hc Hraise).
  - intros metadata f l. rewrite Hcall. case_bool_decide as Heq; [done|].
    destruct (features_shape_at features 0); [|done].
    cbn [mbind result_bind]. destruct (np.shape_at labels' 1); [|done].
    cbn [mbind result_bind]. intros [= <- <- <-]. cbn.
    split_and!; first [done|lia].
Qed.

Lemma shape_mismatch_rejected_witness :
  _prepare_metadata_features_and_labels toy.D "test" (Some 1%Z) (Some 1%Z)
    (Some 3%Z) (Some 1%Z)
  = Raise (ValueError
             (incompatible_shape_message (Some 1%Z) (Some 1%Z) (Some 3%Z)
                (Some 1%Z) 3 2)).
Proof.
  refine (proj1 (proj1 (shape_mismatch_rejected toy.D "test" toy.features3
            toy.labels3 toy.labels3 2 1 1 3 1 eq_refl eq_refl eq_refl) _)).
  discriminate.
Defined.

(** ** Merging the validation set into the training set *)




(** C6: the code drops validation rows that the claim has merged. Its
    test for an empty validation set is [X_valid.size], which for a sparse
    matrix is the number of stored entries: two sparse validation rows of
    the width of the training rows, without a stored entry, are left
    out, and the train split is prepared with the three training rows and
    a sample count of 3, not 5. So are two dense validation rows of width 0.
    Two dense validation rows of zeros, the same data in the other
    format, are merged. *)
Lemma validation_rows_of_size_zero_dropped :
  features_shape_at (X_valid (data toy.D_sparse_zero)) 0 = Ok 2
  ∧ features_shape_at (X_valid (data toy.D_sparse_zero)) 1
    = features_shape_at (X_train (data toy.D_sparse_zero)) 1
  ∧ split_features_and_labels toy.D_sparse_zero "train"
    = Ok (toy.sparse3, toy.labels3)
  ∧ features_shape_at toy.sparse3 0 = Ok 3
  ∧ _prepare_metadata_features_and_labels toy.D_sparse_zero "train"
      None None None None
    = Ok (mk_metadata "toy" 3 2 "train" 2 1 1 1, toy.sparse3, toy.labels3)
  ∧ features_shape_at (X_valid (data toy.D_width_zero)) 0 = Ok 2
  ∧ split_features_and_labels toy.D_width_zero "train"
    = Ok (Dense (np.mk [3; 0] []), toy.labels3)
  ∧ split_features_and_labels toy.D_dense_zero "train"
    = Ok (Dense (np.matrix 2 [[1; 2]; [3; 4]; [5; 6]; [0; 0]; [0; 0]]%Q),
          np.matrix 2 [[1; 0]; [0; 1]; [1; 0]; [0; 1]; [1; 0]]%Q).
Proof. split_and!; reflexivity. Qed.

(** * Further properties *)

(** ** The sparse encoding of a label row *)

Lemma dense_to_sparse_from_spec (values : list Q) (index : Z) :
  let label_indexes := (dense_to_sparse_from index values).1 in
  let label_scores := (dense_to_sparse_from index values).2 in
  length label_indexes = length label_scores
  ∧ StronglySorted Z.lt label_indexes
  ∧ Forall (fun i => index ≤ i < index + Z.of_nat (length values))%Z
      label_indexes
  ∧ (∀ k i s, label_indexes !! k = Some i → label_scores !! k = Some s →
       values !! Z.to_nat (i - index) = Some s ∧ ¬ (s == 0)%Q)
  ∧ (∀ j v, values !! j = Some v → ¬ (v == 0)%Q →
       (index + Z.of_nat j)%Z ∈ label_indexes).
Proof.
  revert index. induction values as [|value values IH]; intros index.
  - cbn. split_and!; [done|constructor|constructor|done|done].
  - specialize (IH (index + 1)%Z). cbn zeta in IH. cbn [dense_to_sparse_from].
    destruct (dense_to_sparse_from (index + 1) values) as [is' ss'].
    cbn [fst snd] in IH. destruct IH as (Hlen & Hsort & Hbnd & Hval & Hall).
    destruct (Qeq_bool value 0) eqn:Hz; cbn [negb fst snd].
    + apply Qeq_bool_iff in Hz. split_and!; [done|done| | |].
      * eapply Forall_impl; [exact Hbnd|]. cbn [length]. intros i Hi. lia.
      * intros k i s Hi Hs. destruct (Hval k i s Hi Hs) as [Hv Hnz].
        split; [|done]. rewrite Forall_forall in Hbnd.
        assert (Hin : i ∈ is') by (by eapply list_elem_of_lookup_2).
        specialize (Hbnd i Hin).
        replace (Z.to_nat (i - index)) with (S (Z.to_nat (i - (index + 1))))
          by lia.
        exact Hv.
      * intros [|j] v Hj Hnz; [by injection Hj as <-|].
        replace (index + Z.of_nat (S j))%Z with (index + 1 + Z.of_nat j)%Z
          by lia.
        by eapply Hall.
    + assert (Hnz : ¬ (value == 0)%Q).
      { intros H%Qeq_bool_iff. congruence. }
      split_and!.
      * cbn. by rewrite Hlen.
      * constructor; [done|]. eapply Forall_impl; [exact Hbnd|].
        intros i Hi. cbn beta in Hi. lia.
      * constructor; [cbn [length]; lia|].
        eapply Forall_impl; [exact Hbnd|]. cbn [length]. intros i Hi. lia.
      * intros [|k] i s Hi Hs.
        { injection Hi as <-. injection Hs as <-.
          by rewrite Z.sub_diag. }
        destruct (Hval k i s Hi Hs) as [Hv Hnz'].
        split; [|done]. rewrite Forall_forall in Hbnd.
        assert (Hin : i ∈ is') by (by eapply list_elem_of_lookup_2).
        specialize (Hbnd i Hin).
        replace (Z.to_nat (i - index)) with (S (Z.to_nat (i - (index + 1))))
          by lia.
        exact Hv.
      * intros [|j] v Hj Hnz'.
        { rewrite Z.add_0_r. apply list_elem_of_here. }
        apply list_elem_of_further.
        replace (index + Z.of_nat (S j))%Z with (index + 1 + Z.of_nat j)%Z
          by lia.
        by eapply Hall.
Qed.

(** X1: [dense_to_sparse_label] on a one-dimensional label row returns two
    lists of one length; the indexes are strictly ascending positions of
    the row; each score is the entry at its index and is not zero; and the
    position of every entry that is not zero is listed. *)
Theorem dense_to_sparse_label_keeps_nonzero (values : list Q) :
  ∃ label_indexes label_scores,
    dense_to_sparse_label (np.vector values)
      = Ok (label_indexes, label_scores)
    ∧ length label_indexes = length label_scores
    ∧ StronglySorted Z.lt label_indexes
    ∧ (∀ k i s, label_indexes !! k = Some i → label_scores !! k = Some s →
         (0 ≤ i < Z.of_nat (length values))%Z
         ∧ values !! Z.to_nat i = Some s ∧ ¬ (s == 0)%Q)
    ∧ (∀ j v, values !! j = Some v → ¬ (v == 0)%Q →
         Z.of_nat j ∈ label_indexes).
Proof.
  destruct (dense_to_sparse_from_spec values 0)
    as (Hlen & Hsort & Hbnd & Hval & Hall).
  exists (dense_to_sparse_from 0 values).1, (dense_to_sparse_from 0 values).2.
  split_and!; [|done|done| |].
  - unfold dense_to_sparse_label, entries_1d. cbn.
    by destruct (dense_to_sparse_from 0 values).
  - intros k i s Hi Hs. destruct (Hval k i s Hi Hs) as [Hv Hnz].
    rewrite Z.sub_0_r in Hv. split; [|done].
    rewrite Forall_forall in Hbnd.
    assert (Hin : i ∈ (dense_to_sparse_from 0 values).1)
      by (by eapply list_elem_of_lookup_2).
    specialize (Hbnd i Hin). cbn beta in Hbnd. lia.
  - intros j v Hj Hnz. by apply (Hall j v Hj Hnz).
Qed.

Lemma sparse_to_dense_from_zeros index n l :
  length l = n → Forall (fun v => v == 0)%Q l →
  Forall2 Qeq (sparse_to_dense_from index n [] []) l.
Proof.
  intros <- H. revert index. induction H as [|v l Hv _ IH]; intros index;
    cbn; constructor; [by symmetry|apply IH].
Qed.

Lemma sparse_to_dense_from_round_trip (values : list Q) (index : Z) :
  Forall2 Qeq
    (sparse_to_dense_from index (length values)
       (dense_to_sparse_from index values).1
       (dense_to_sparse_from index values).2)
    values.
Proof.
  revert index. induction values as [|value values IH]; intros index;
    [constructor|].
  cbn [length dense_to_sparse_from].
  pose proof (dense_to_sparse_from_spec values (index + 1)) as Hspec.
  cbn zeta in Hspec. specialize (IH (index + 1)%Z).
  destruct (dense_to_sparse_from (index + 1) values) as [is' ss'].
  cbn [fst snd] in *. destruct Hspec as (Hlen & _ & Hbnd & _).
  destruct (Qeq_bool value 0) eqn:Hz; cbn [negb fst snd].
  - apply Qeq_bool_iff in Hz. cbn [sparse_to_dense_from].
    destruct is' as [|i is'], ss' as [|s ss']; try done.
    + constructor; [by symmetry|done].
    + apply Forall_cons in Hbnd as [Hi _].
      rewrite (proj2 (Z.eqb_neq i index)) by lia.
      constructor; [by symmetry|done].
  - cbn [sparse_to_dense_from]. rewrite Z.eqb_refl.
    constructor; [reflexivity|done].
Qed.

(** X2: the sparse encoding of a label row loses nothing: putting each
    score back at its index and 0 elsewhere gives a row equal, entry by
    entry, to the row that was encoded. *)
Theorem dense_to_sparse_label_round_trip (values : list Q) :
  ∃ label_indexes label_scores,
    dense_to_sparse_label (np.vector values)
      = Ok (label_indexes, label_scores)
    ∧ Forall2 Qeq
        (sparse_to_dense_from 0 (length values) label_indexes label_scores)
        values.
Proof.
  exists (dense_to_sparse_from 0 values).1, (dense_to_sparse_from 0 values).2.
  split; [|apply sparse_to_dense_from_round_trip].
  unfold dense_to_sparse_label, entries_1d. cbn.
  by destruct (dense_to_sparse_from 0 values).
Qed.

(** ** The loop, whatever its outcome *)

Section LoopWritten.

Variables (is_test_set : bool) (sequence_size id_translation : Z).

Local Abbreviation encode :=
  (sequence_example_of_row is_test_set sequence_size id_translation).
Local Abbreviation encode_all :=
  (encode_examples is_test_set sequence_size id_translation).
Local Abbreviation loop :=
  (write_examples is_test_set sequence_size id_translation).

(** The loop writes the examples of a first part of the rows; it ends
    well after [iterations] rows, or fails at the first row that does not
    encode. *)
Lemma write_examples_written max rows counter :
  ∃ exs,
    trace (loop max rows counter) = TFRecordWriter_write <$> exs
    ∧ encode_all (take (length exs) rows) counter = Ok exs
    ∧ length exs ≤ length rows
    ∧ (outcome (loop max rows counter)
         = Ok (counter + Z.of_nat (length exs))%Z
       ∧ length exs = iterations max counter (length rows)
       ∨ ∃ e row label_row,
           outcome (loop max rows counter) = Raise e
           ∧ rows !! length exs = Some (row, label_row)
           ∧ encode (counter + Z.of_nat (length exs)) row label_row
             = Raise e).
Proof.
  revert counter. induction rows as [|[row label_row] rows IH]; intros counter.
  - exists []. cbn. split_and!; [done..|]. left. by rewrite Z.add_0_r.
  - destruct (encode counter row label_row) as [ex|e] eqn:Hex.
    + rewrite (write_examples_cons_ok _ _ _ _ _ _ _ _ _ Hex). cbn zeta.
      cbn [length iterations].
      destruct (limit_reached max (counter + 1)).
      * exists [ex]. cbn [trace outcome mret io_ret length take].
        rewrite take_0. cbn [encode_examples]. rewrite Hex.
        split_and!; [done|done|lia|]. by left.
      * destruct (IH (counter + 1)%Z) as (exs & Ht & Henc & Hlen & Hout).
        exists (ex :: exs). cbn [trace outcome length take encode_examples].
        rewrite Ht, Hex, Henc. split_and!; [done|done|lia|].
        destruct Hout as [[Hok Hit]|(e & r & lr & He & Hr & Henc')].
        -- left. rewrite Hok, Hit. split; [f_equal; lia|done].
        -- right. exists e, r, lr. split_and!; [done|done|].
           rewrite <- Henc'. f_equal. lia.
    + rewrite (write_examples_cons_raise _ _ _ _ _ _ _ _ _ Hex).
      exists []. cbn [trace outcome length take fmap list_fmap].
      split_and!; [done|done|lia|]. right. exists e, row, label_row.
      by rewrite Z.add_0_r.
Qed.

Lemma encode_examples_Forall (P : tf.SequenceExample → Prop) rows counter exs :
  (∀ counter row label_row ex,
     encode counter row label_row = Ok ex → P ex) →
  encode_all rows counter = Ok exs → Forall P exs.
Proof.
  intros HP. revert counter exs.
  induction rows as [|[row label_row] rows IH]; intros counter exs.
  - intros [= <-]. constructor.
  - intros (ex & exs' & -> & Hex & H)%encode_examples_cons_inv.
    constructor; [by eapply HP|by eapply IH].
Qed.

End LoopWritten.

(** ** One split, whatever its outcome *)

(** The three ways a call can go: [np.savetxt] refuses the labels of a
    test split; the rows cannot be iterated over; or the loop runs, to its
    end or to the first row that does not encode. *)
Lemma convert_cases filepath metadata features labels D_info max num_shards :
  let is_test_set := bool_decide (set_type metadata = "test") in
  let call :=
    convert_vectors_to_sequence_example filepath metadata features labels
      D_info max num_shards in
  let sol := solution_events filepath metadata labels in
  (set_type metadata = "test"
   ∧ call = IO sol (Raise (LibError "numpy.savetxt: expected 1D or 2D array")))
  ∨ (∃ e, zip_rows features labels = Raise e
       ∧ call = IO (sol ++ [TFRecordWriter_open filepath; TFRecordWriter_close])
                  (Raise e))
  ∨ (∃ rows exs,
       zip_rows features labels = Ok rows
       ∧ encode_examples is_test_set (sequence_size metadata)
           (id_offset metadata D_info) (take (length exs) rows) 0 = Ok exs
       ∧ length exs ≤ length rows
       ∧ (length exs = iterations max 0 (length rows)
          ∧ call
            = IO (sol ++ TFRecordWriter_open filepath
                         :: (TFRecordWriter_write <$> exs)
                      ++ [TFRecordWriter_close;
                          write_text (metadata_path filepath)
                            (sidecar (Z.of_nat (length exs)) metadata D_info)])
                 (Ok tt)
          ∨ ∃ e row label_row,
              rows !! length exs = Some (row, label_row)
              ∧ sequence_example_of_row is_test_set (sequence_size metadata)
                  (id_offset metadata D_info) (Z.of_nat (length exs)) row
                  label_row = Raise e
              ∧ call
                = IO (sol ++ TFRecordWriter_open filepath
                             :: (TFRecordWriter_write <$> exs)
                          ++ [TFRecordWriter_close])
                     (Raise e))).
Proof.
  intros is_test_set call sol.
  destruct (decide (set_type metadata = "test")) as [Htest|Htest];
    [destruct (decide (np.ndim labels = 1 ∨ np.ndim labels = 2))
       as [Hdim|Hdim]|].
  2:{ left. split; [done|]. by apply convert_savetxt_refuses. }
  all: right.
  all: assert (Hsave : savetxt_accepts metadata labels) by (by intros ?).
  all: subst call; rewrite (convert_unfold _ _ _ _ _ _ _ Hsave).
  all: destruct (zip_rows features labels) as [rows|e] eqn:Hzip.
  all: try (left; exists e; split; [done|];
            unfold convert_body; by rewrite Hzip, lift_raise_bind).
  all: right; rewrite (convert_body_rows _ _ _ _ _ _ Hzip).
  all: destruct (write_examples_written is_test_set (sequence_size metadata)
                   (id_offset metadata D_info) max rows 0)
         as (exs & Ht & Henc & Hlen & Hout).
  all: exists rows, exs; split_and!; [done|done|done|].
  all: destruct Hout as [[Hok Hit]|(e & row & label_row & He & Hr & Henc')].
  all: subst is_test_set; rewrite Ht.
  all: first
         [ left; split; [done|]; rewrite Hok, Z.add_0_l;
           by rewrite metadata_textproto_sidecar
         | right; exists e, row, label_row; rewrite He;
           by rewrite Z.add_0_l in Henc' ].
Qed.

Lemma records_sol_block filepath metadata labels p exs post :
  records post = [] →
  records (solution_events filepath metadata labels
           ++ TFRecordWriter_open p :: (TFRecordWriter_write <$> exs) ++ post)
  = exs.
Proof.
  intros Hpost.
  by rewrite records_convert_ok, records_solution_events, Hpost, app_nil_r.
Qed.

(** The examples a call writes are the encodings of a first part of its
    rows. *)
Lemma convert_records filepath metadata features labels D_info max num_shards :
  ∃ rows,
    encode_examples (bool_decide (set_type metadata = "test"))
      (sequence_size metadata) (id_offset metadata D_info) rows 0
    = Ok (records (trace (convert_vectors_to_sequence_example filepath
                            metadata features labels D_info max num_shards))).
Proof.
  destruct (convert_cases filepath metadata features labels D_info max
              num_shards)
    as [[_ ->]|[(e & _ & ->)|(rows & exs & _ & Henc & _ & Hcall)]];
    cbn [trace].
  - exists []. by rewrite records_solution_events.
  - exists []. by rewrite records_app, records_solution_events.
  - exists (take (length exs) rows).
    destruct Hcall as [[_ ->]|(e & row & label_row & _ & _ & ->)];
      cbn [trace]; by rewrite records_sol_block.
Qed.

(** An example of a test split carries no label. *)
Lemma test_example_unlabelled sequence_size id_translation counter row
    label_row ex :
  sequence_example_of_row true sequence_size id_translation counter row
    label_row = Ok ex →
  unlabelled ex.
Proof.
  unfold sequence_example_of_row. cbn [mbind result_bind mret result_ret].
  match goal with |- context [match ?r with SparseRow _ => _ | _ => _ end] =>
    destruct r end.
  - destruct (if bool_decide _ then _ else _) as [fl|]; [|done].
    cbn. intros [= <-]. split; cbn [tf.context].
    + by rewrite lookup_insert_ne, lookup_insert_eq.
    + by rewrite !lookup_insert_ne, lookup_singleton_eq.
  - destruct (bool_decide _); [done|].
    destruct (csr_feature_vector_to_lists r) as [[? ?] ?].
    cbn. intros [= <-]. split; cbn [tf.context].
    + by rewrite lookup_insert_ne, lookup_insert_eq.
    + by rewrite !lookup_insert_ne, lookup_singleton_eq.
Qed.

(** X3: every example written for a test split, by a call that ends well
    or not, has an empty label index and an empty label score: the labels
    of the test split are not in the record file. *)
Theorem test_records_carry_no_labels filepath metadata features labels D_info
    max num_shards :
  set_type metadata = "test" →
  Forall unlabelled
    (records (trace (convert_vectors_to_sequence_example filepath metadata
                       features labels D_info max num_shards))).
Proof.
  intros Htest.
  destruct (convert_records filepath metadata features labels D_info max
              num_shards) as [rows Henc].
  rewrite (bool_decide_eq_true_2 _ Htest) in Henc.
  eapply encode_examples_Forall; [|exact Henc].
  intros counter row label_row ex. apply test_example_unlabelled.
Qed.

Lemma test_records_carry_no_labels_witness :
  Forall unlabelled
    (records (trace (convert_vectors_to_sequence_example toy.filepath
                       (toy.metadata "test" 3 1) toy.features3 toy.labels3
                       toy.info_dense None 1)))
  ∧ length (records (trace (convert_vectors_to_sequence_example toy.filepath
                       (toy.metadata "test" 3 1) toy.features3 toy.labels3
                       toy.info_dense None 1))) = 3.
Proof.
  split; [|reflexivity].
  exact (test_records_carry_no_labels toy.filepath (toy.metadata "test" 3 1)
           toy.features3 toy.labels3 toy.info_dense None 1 eq_refl).
Defined.

(** X4: the identifiers of the examples a call writes are consecutive
    from the offset of the split (0 for a test split, [test_num]
    otherwise), also when the call fails part of the way, and there are at
    most as many examples as the feature matrix and the label matrix both
    have rows. *)
Theorem written_ids_are_consecutive filepath metadata features labels D_info
    max num_shards :
  let written :=
    records (trace (convert_vectors_to_sequence_example filepath metadata
                      features labels D_info max num_shards)) in
  example_id <$> written
  = Some <$> seqZ (id_offset metadata D_info) (Z.of_nat (length written))
  ∧ ∀ rows, zip_rows features labels = Ok rows →
      length written ≤ length rows.
Proof.
  intros written. split.
  - destruct (convert_records filepath metadata features labels D_info max
                num_shards) as [rows Henc].
    fold written in Henc.
    rewrite (encode_examples_ids _ _ _ _ _ _ Henc), Z.add_0_l.
    by rewrite (encode_examples_length _ _ _ _ _ _ Henc).
  - intros rows Hrows. subst written.
    destruct (convert_cases filepath metadata features labels D_info max
                num_shards)
      as [[_ ->]|[(e & _ & ->)|(rows' & exs & Hz & _ & Hlen & Hcall)]];
      cbn [trace].
    + rewrite records_solution_events. cbn. lia.
    + rewrite records_app, records_solution_events. cbn. lia.
    + rewrite Hrows in Hz. injection Hz as <-.
      destruct Hcall as [[_ ->]|(e & row & label_row & _ & _ & ->)];
        cbn [trace]; by rewrite records_sol_block.
Qed.

Lemma text_written_none p t :
  Forall (fun e => match e with write_text _ _ => False | _ => True end) t →
  text_written p t = None.
Proof.
  intros H. unfold text_written.
  replace (omap _ t) with (@nil string); [done|].
  induction H as [|e t He _ IH]; [done|]. cbn. by destruct e.
Qed.

Lemma no_text_in_block filepath metadata labels p exs :
  Forall (fun e => match e with write_text _ _ => False | _ => True end)
    (solution_events filepath metadata labels
     ++ TFRecordWriter_open p :: (TFRecordWriter_write <$> exs)
     ++ [TFRecordWriter_close]).
Proof.
  apply Forall_app. split.
  - unfold solution_events. case_bool_decide; by repeat constructor.
  - constructor; [done|]. apply Forall_app. split; [|by repeat constructor].
    by apply Forall_fmap, Forall_true.
Qed.

Lemma last_block (pre : list io_event) e mid z :
  last (pre ++ e :: mid ++ [z]) = Some z.
Proof.
  replace (pre ++ e :: mid ++ [z]) with ((pre ++ e :: mid) ++ [z])
    by (by rewrite <- app_assoc).
  apply last_snoc.
Qed.

(** X5: a call that ends well has written, as its last effect, a sidecar
    whose sample count is the number of examples it wrote; a call that
    fails writes no sidecar at all and, once the record file is created,
    closes it as its last effect. *)
Theorem sidecar_counts_examples_written filepath metadata features labels
    D_info max num_shards :
  let call :=
    convert_vectors_to_sequence_example filepath metadata features labels
      D_info max num_shards in
  let text :=
    sidecar (Z.of_nat (length (records (trace call)))) metadata D_info in
  (outcome call = Ok tt →
     last (trace call) = Some (write_text (metadata_path filepath) text)
     ∧ text_written (metadata_path filepath) (trace call) = Some text)
  ∧ (∀ e, outcome call = Raise e →
       (∀ p, text_written p (trace call) = None)
       ∧ (record_file_created (trace call) = true →
          last (trace call) = Some TFRecordWriter_close)).
Proof.
  intros call text. subst text call.
  destruct (convert_cases filepath metadata features labels D_info max
              num_shards)
    as [[Htest ->]|[(e & _ & ->)|(rows & exs & _ & _ & _ & Hcall)]];
    cbn [trace outcome].
  - split; [done|]. intros e _. split.
    + intros p. apply text_written_none. unfold solution_events.
      case_bool_decide; by repeat constructor.
    + unfold solution_events. by rewrite (bool_decide_eq_true_2 _ Htest).
  - split; [done|]. intros e' _. split.
    + intros p. apply text_written_none.
      apply (no_text_in_block filepath metadata labels filepath []).
    + intros _. apply (last_block _ _ []).
  - destruct Hcall as [[_ ->]|(e & row & label_row & _ & _ & ->)];
      cbn [trace outcome].
    + split; [|done]. intros _. rewrite records_sol_block by done.
      split; [|apply text_written_convert].
      replace (TFRecordWriter_open filepath
               :: (TFRecordWriter_write <$> exs)
               ++ [TFRecordWriter_close;
                   write_text (metadata_path filepath)
                     (sidecar (Z.of_nat (length exs)) metadata D_info)])
        with (TFRecordWriter_open filepath
              :: ((TFRecordWriter_write <$> exs) ++ [TFRecordWriter_close])
              ++ [write_text (metadata_path filepath)
                    (sidecar (Z.of_nat (length exs)) metadata D_info)])
        by (by rewrite <- app_assoc).
      apply last_block.
    + split; [done|]. intros e' _. split.
      * intros p. apply text_written_none, no_text_in_block.
      * intros _. apply last_block.
Qed.

Lemma solution_written_app t1 t2 :
  solution_written (t1 ++ t2) = solution_written t1 || solution_written t2.
Proof. apply existsb_app. Qed.

Lemma solution_written_writes exs :
  solution_written (TFRecordWriter_write <$> exs) = false.
Proof. induction exs as [|ex exs IH]; [done|]. exact IH. Qed.

(** X6: a call for a test split first writes the solution file, with the
    whole label matrix it was given, whatever the limit on the number of
    examples; a call for another split writes no solution file. *)
Theorem solution_file_holds_all_labels filepath metadata features labels
    D_info max num_shards :
  let call :=
    convert_vectors_to_sequence_example filepath metadata features labels
      D_info max num_shards in
  (set_type metadata = "test" →
     head (trace call)
     = Some (np_savetxt
               (os_path_join (os_path_abspath (os_path_dirname filepath))
                  (dataset_name metadata +:+ ".solution"))
               labels "%.1f"))
  ∧ (set_type metadata ≠ "test" → solution_written (trace call) = false).
Proof.
  intros call. subst call.
  assert (Hsol_test : set_type metadata = "test" →
    solution_events filepath metadata labels
    = [np_savetxt
         (os_path_join (os_path_abspath (os_path_dirname filepath))
            (dataset_name metadata +:+ ".solution"))
         labels "%.1f"]).
  { intros H. unfold solution_events. by rewrite (bool_decide_eq_true_2 _ H). }
  assert (Hsol_other : set_type metadata ≠ "test" →
    solution_events filepath metadata labels = []).
  { intros H. unfold solution_events. by rewrite (bool_decide_eq_false_2 _ H). }
  destruct (convert_cases filepath metadata features labels D_info max
              num_shards)
    as [[Htest ->]|[(e & _ & ->)|(rows & exs & _ & _ & _ & Hcall)]];
    cbn [trace].
  - split; [intros _; by rewrite Hsol_test|done].
  - split; intros H; [by rewrite (Hsol_test H)|by rewrite (Hsol_other H)].
  - destruct Hcall as [[_ ->]|(e & row & label_row & _ & _ & ->)];
      cbn [trace]; (split; intros H; [by rewrite (Hsol_test H)|]);
      rewrite (Hsol_other H); cbn [app solution_written existsb orb];
      fold (solution_written
              ((TFRecordWriter_write <$> exs) ++ [TFRecordWriter_close]));
      try fold (solution_written
              ((TFRecordWriter_write <$> exs)
               ++ [TFRecordWriter_close;
                   write_text (metadata_path filepath)
                     (sidecar (Z.of_nat (length exs)) metadata D_info)]));
      by rewrite solution_written_app, solution_written_writes.
Qed.

Lemma sidecar_counts_examples_written_witness :
  text_written (metadata_path toy.filepath)
    (trace (convert_vectors_to_sequence_example toy.filepath
              (toy.metadata "train" 3 1) toy.features3 toy.labels3
              toy.info_dense (Some 2%Z) 1))
  = Some (sidecar 2 (toy.metadata "train" 3 1) toy.info_dense)
  ∧ text_written (metadata_path toy.filepath)
      (trace (convert_vectors_to_sequence_example toy.filepath
                (toy.metadata "train" 1 2) toy.sparse1 toy.labels1
                toy.info_sparse None 1))
    = None.
Proof.
  split.
  - exact (proj2 (proj1 (sidecar_counts_examples_written toy.filepath
                           (toy.metadata "train" 3 1) toy.features3
                           toy.labels3 toy.info_dense (Some 2%Z) 1)
                    eq_refl)).
  - exact (proj1 (proj2 (sidecar_counts_examples_written toy.filepath
                           (toy.metadata "train" 1 2) toy.sparse1
                           toy.labels1 toy.info_sparse None 1)
                    (NotImplementedError sparse_sequence_message) eq_refl)
             (metadata_path toy.filepath)).
Defined.

Lemma solution_file_holds_all_labels_witness :
  head (trace (convert_vectors_to_sequence_example toy.filepath
                 (toy.metadata "test" 3 1) toy.features3 toy.labels3
                 toy.info_dense (Some 1%Z) 1))
  = Some (np_savetxt
            (os_path_join (os_path_abspath (os_path_dirname toy.filepath))
               "toy.solution")
            toy.labels3 "%.1f")
  ∧ length (records (trace (convert_vectors_to_sequence_example toy.filepath
                 (toy.metadata "test" 3 1) toy.features3 toy.labels3
                 toy.info_dense (Some 1%Z) 1))) = 1.
Proof.
  split; [|reflexivity].
  exact (proj1 (solution_file_holds_all_labels toy.filepath
                  (toy.metadata "test" 3 1) toy.features3 toy.labels3
                  toy.info_dense (Some 1%Z) 1) eq_refl).
Defined.

(** ** The payload of an example *)

Lemma concat_chunks {A : Type} (n m : nat) (l : list A) :
  length l = n * m →
  concat (np.chunks n m l) = l
  ∧ Forall (fun c => length c = m) (np.chunks n m l).
Proof.
  revert l. induction n as [|n IH]; intros l Hlen.
  - destruct l; [by split|done].
  - cbn [np.chunks concat].
    destruct (IH (drop m l)) as [Hc Hf]; [rewrite length_drop; lia|].
    rewrite Hc, take_drop. split; [done|].
    constructor; [|done]. rewrite length_take. lia.
Qed.

Lemma labels_of_row_ok (is_test_set : bool) label_row (k : nat) :
  np.shape label_row = [k] →
  ∃ li ls : tf.Feature,
    (if is_test_set
     then mret (_int64_feature [], _float_feature [])
     else dense_to_sparse_label label_row
          ≫= λ '(label_indexes, label_scores),
               mret (_int64_feature label_indexes,
                     _float_feature label_scores))
    = (Ok (li, ls) : result (tf.Feature * tf.Feature)).
Proof.
  intros Hk. destruct is_test_set; [by eexists _, _|].
  unfold dense_to_sparse_label, entries_1d. rewrite Hk.
  cbn [mbind result_bind mret result_ret].
  destruct (dense_to_sparse_from 0 (np.data label_row)). by eexists _, _.
Qed.

(** X7: a dense feature row whose width the sequence size divides is
    encoded as exactly [sequence_size] frames of equal length, which put
    end to end are the entries of the row, each as the 32-bit float the
    record keeps of it; with a sequence size of 1 this is the row as one
    frame. The frames are the only feature list of the example. *)
Theorem dense_row_split_into_frames is_test_set sequence_size id_translation
    counter (row : list Q) label_row (k : nat) :
  np.shape label_row = [k] →
  (0 < sequence_size)%Z →
  (Z.of_nat (length row) mod sequence_size = 0)%Z →
  ∃ ex (frames : list (list tf.float32)),
    sequence_example_of_row is_test_set sequence_size id_translation counter
      (DenseRow (np.vector row)) label_row = Ok ex
    ∧ tf.feature_lists ex = {[ "0_dense_input" := tf.FloatList <$> frames ]}
    ∧ length frames = Z.to_nat sequence_size
    ∧ Forall (fun f => length f = length row / Z.to_nat sequence_size) frames
    ∧ concat frames = tf.to_float32 <$> row.
Proof.
  intros Hk Hpos Hmod. unfold sequence_example_of_row.
  destruct (labels_of_row_ok is_test_set label_row k Hk) as (li & ls & ->).
  cbn [mbind result_bind].
  destruct (bool_decide (sequence_size = 1%Z)) eqn:Hone.
  - apply bool_decide_eq_true_1 in Hone. subst sequence_size.
    eexists _, [tf.to_float32 <$> row]. cbn.
    split_and!; [done|done|done| |by rewrite app_nil_r].
    constructor; [|done]. by rewrite length_fmap, Nat.div_1_r.
  - set (n := Z.to_nat sequence_size).
    assert (Hlen : length row = n * (length row / n)).
    { apply Nat2Z.inj. rewrite Nat2Z.inj_mul, Nat2Z.inj_div.
      subst n. rewrite Z2Nat.id by lia. apply Z_div_exact_2; lia. }
    unfold np.reshape_rows, np.size. cbn [np.shape np.vector np.prod foldr].
    rewrite Nat.mul_1_r, !bool_decide_eq_true_2 by done.
    cbn [andb mbind result_bind mret result_ret np.iter np.shape np.data
         np.prod foldr].
    rewrite Nat.mul_1_r. fold n.
    destruct (concat_chunks n (length row / n) row Hlen) as [Hc Hf].
    eexists _, ((fun c : list Q => tf.to_float32 <$> c)
                  <$> np.chunks n (length row / n) row).
    split_and!.
    + done.
    + cbn [tf.feature_lists]. unfold _feature_list, _float_feature.
      by rewrite <- !list_fmap_compose.
    + rewrite length_fmap. apply length_chunks.
    + apply Forall_fmap. eapply Forall_impl; [exact Hf|].
      intros f Hlf. cbn. rewrite length_fmap. exact Hlf.
    + assert (Hmap : ∀ parts : list (list Q),
        concat ((fun c : list Q => tf.to_float32 <$> c) <$> parts)
        = tf.to_float32 <$> concat parts).
      { induction parts as [|c cs IH]; [done|].
        cbn. by rewrite IH, fmap_app. }
      by rewrite Hmap, Hc.
Qed.

Lemma dense_row_split_into_frames_witness :
  ∃ ex (frames : list (list tf.float32)),
    sequence_example_of_row false 2 0 0
      (DenseRow (np.vector [1; 1 # 10; 3; 16777217]%Q)) (np.vector [0; 1]%Q)
    = Ok ex
    ∧ tf.feature_lists ex = {[ "0_dense_input" := tf.FloatList <$> frames ]}
    ∧ length frames = 2
    ∧ Forall (fun f => length f = 2) frames
    ∧ concat frames
      = [tf.F32 1; tf.F32 (13421773 # 134217728); tf.F32 3;
         tf.F32 16777216].
Proof.
  apply (dense_row_split_into_frames false 2 0 0
           [1; 1 # 10; 3; 16777217]%Q (np.vector [0; 1]%Q) 2);
    [reflexivity|lia|reflexivity].
Defined.

(** ** Limits at the edges *)

Lemma iterations_negative (k : Z) n :
  (k < 0)%Z → iterations (Some k) 0 n = n `min` 1.
Proof.
  intros Hk. destruct n as [|n]; [done|]. cbn [iterations].
  rewrite limit_reached_Some by lia.
  rewrite bool_decide_eq_true_2 by lia. lia.
Qed.

Lemma iterations_large (k : Z) n :
  (Z.of_nat n ≤ k)%Z → iterations (Some k) 0 n = n.
Proof.
  intros Hk. destruct (decide (k = 0%Z)) as [->|Hne].
  - by apply iterations_falsy.
  - rewrite iterations_limit by lia. lia.
Qed.

(** X9: on a writable split of [n] rows, a limit of at least [n] leaves
    all [n] examples to be written, and a negative limit stops the loop
    after the first example: one example is written when there is a row,
    and the sidecar says so. *)
Theorem limit_at_the_edges filepath metadata features labels D_info
    num_shards (n : nat) (k : Z) :
  writable (sequence_size metadata) features labels →
  features_shape_at features 0 = Ok n →
  np.shape_at labels 0 = Ok n →
  let call :=
    convert_vectors_to_sequence_example filepath metadata features labels
      D_info (Some k) num_shards in
  ((Z.of_nat n ≤ k)%Z →
     length (records (trace call)) = n
     ∧ text_written (metadata_path filepath) (trace call)
       = Some (sidecar (Z.of_nat n) metadata D_info))
  ∧ ((k < 0)%Z →
     length (records (trace call)) = n `min` 1
     ∧ text_written (metadata_path filepath) (trace call)
       = Some (sidecar (Z.of_nat (n `min` 1)) metadata D_info)).
Proof.
  intros Hw Hn Hn' call. subst call.
  destruct (convert_writable filepath metadata features labels D_info
              num_shards n Hw Hn Hn') as (rows & exs & _ & _ & _ & _ & Hcall).
  cbn zeta in Hcall. destruct (Hcall (Some k)) as (_ & _ & Hlen & Htext).
  split; intros Hk.
  - rewrite (iterations_large _ _ Hk) in Hlen, Htext. by split.
  - rewrite (iterations_negative _ _ Hk) in Hlen, Htext. by split.
Qed.

Lemma limit_at_the_edges_witness :
  length (records (trace (convert_vectors_to_sequence_example toy.filepath
            (toy.metadata "train" 3 1) toy.features3 toy.labels3
            toy.info_dense (Some (-1)%Z) 1))) = 1.
Proof.
  refine (proj1 (proj2 (limit_at_the_edges toy.filepath
            (toy.metadata "train" 3 1) toy.features3 toy.labels3
            toy.info_dense 1 3 (-1) _ eq_refl eq_refl) _)); [|lia].
  by apply toy_writable3.
Defined.

(** ** Errors of the preparation *)

(** X10: when some but not all of the four shape components are given,
    the preparation of a split that loads fails with the [ValueError]
    whose message shows the four components as given, [None] for a
    missing one. *)
Theorem partial_shape_rejected D set_type s r c ch features labels labels' :
  split_features_and_labels D set_type = Ok (features, labels) →
  normalize_labels (task (info D)) labels = Ok labels' →
  (s, r, c, ch) ≠ (None, None, None, None) →
  s = None ∨ r = None ∨ c = None ∨ ch = None →
  _prepare_metadata_features_and_labels D set_type s r c ch
    = Raise (ValueError (missing_shape_message s r c ch))
  ∧ occurs_in (str_shape s r c ch) (missing_shape_message s r c ch).
Proof.
  intros Hsplit Hnorm Hsome Hnone. split.
  - rewrite (prepare_unfold _ _ _ _ _ _ _ _ _ Hsplit Hnorm).
    destruct s, r, c, ch; try done;
      destruct Hnone as [?|[?|[?|?]]]; done.
  - unfold missing_shape_message.
    exists ("Some shape info is not specified: " +:+
            "(sequence_size, row_count, col_count, num_channels) = "),
      ". Please add all these metadata as arguments.".
    by rewrite !append_assoc.
Qed.

Lemma partial_shape_rejected_witness :
  _prepare_metadata_features_and_labels toy.D "test" (Some 1%Z) None
    (Some 2%Z) None
  = Raise (ValueError (missing_shape_message (Some 1%Z) None (Some 2%Z) None)).
Proof.
  refine (proj1 (partial_shape_rejected toy.D "test" (Some 1%Z) None
                   (Some 2%Z) None toy.features3 toy.labels3 toy.labels3
                   eq_refl eq_refl _ _)); [discriminate|by right; left].
Defined.

Lemma concatenate_raises_lib a b e :
  np.concatenate a b = Raise e → ∃ origin, e = LibError origin.
Proof.
  unfold np.concatenate.
  destruct (np.shape a) as [|? ?], (np.shape b) as [|? ?];
    try case_bool_decide; intros [= <-]; by eexists.
Qed.

Lemma shape_at_raises_lib f i e :
  features_shape_at f i = Raise e → ∃ origin, e = LibError origin.
Proof.
  destruct f as [a|m|m]; cbn; unfold np.shape_at.
  - destruct (np.shape a !! i); intros [= <-]; by eexists.
  - destruct (sp.shape m !! i); intros [= <-]; by eexists.
  - destruct (_ !! i); intros [= <-]; by eexists.
Qed.

Lemma stack_raises_lib arrays e :
  np.stack_axis1 arrays = Raise e → ∃ origin, e = LibError origin.
Proof.
  unfold np.stack_axis1.
  destruct arrays as [|a arrays]; [intros [= <-]; by eexists|].
  destruct (forallb _ _); [|intros [= <-]; by eexists].
  destruct (np.shape a); intros [= <-]; by eexists.
Qed.

Lemma concat_features_raises_lib X_train X_valid e :
  concat_features X_train X_valid = Raise e → ∃ origin, e = LibError origin.
Proof.
  assert (Hcoo : ∀ a b e',
    sp.vstack_coo a b = Raise e' → ∃ origin, e' = LibError origin).
  { intros a b e'. unfold sp.vstack_coo.
    destruct (_ || _); [done|]. intros [= <-]. by eexists. }
  assert (Hdense : ∀ a e',
    sp.coo_of_dense a = Raise e' → ∃ origin, e' = LibError origin).
  { intros a e'. unfold sp.coo_of_dense.
    destruct (np.shape a) as [|? [|? [|? ?]]]; try done.
    intros [= <-]. by eexists. }
  unfold concat_features.
  destruct X_train as [a|a|a], X_valid as [b|b|b]; cbn;
    try (intros [= <-]; by eexists).
  - destruct (np.concatenate a b) eqn:Hab; [done|]. cbn. intros [= <-].
    by eapply concatenate_raises_lib.
  - destruct (sp.coo_of_dense b) as [b'|e'] eqn:Hb; cbn.
    + destruct (sp.vstack_coo _ b') eqn:Hv; [done|]. intros [= <-].
      by eapply Hcoo.
    + intros [= <-]. by eapply Hdense.
  - unfold sp.vstack. case_bool_decide; [done|]. cbn. intros [= <-].
    by eexists.
  - destruct (sp.vstack_coo _ b) eqn:Hv; [done|]. intros [= <-].
    by eapply Hcoo.
  - destruct (sp.coo_of_dense b) as [b'|e'] eqn:Hb; cbn.
    + destruct (sp.vstack_coo _ b') eqn:Hv; [done|]. intros [= <-].
      by eapply Hcoo.
    + intros [= <-]. by eapply Hdense.
  - destruct (sp.vstack_coo _ _) eqn:Hv; [done|]. intros [= <-].
    by eapply Hcoo.
  - destruct (sp.vstack_coo _ b) eqn:Hv; [done|]. intros [= <-].
    by eapply Hcoo.
Qed.

Lemma split_raises D set_type e :
  split_features_and_labels D set_type = Raise e → e ≠ AssertionError.
Proof.
  unfold split_features_and_labels.
  destruct (bool_decide (set_type = "train")).
  - destruct (bool_decide (features_size (X_valid (data D)) ≠ 0)); [|done].
    destruct (concat_features _ _) as [f|e'] eqn:Hc.
    + cbn [mbind result_bind].
      destruct (np.concatenate _ _) as [l|e''] eqn:Hl; [done|].
      cbn. intros [= <-].
      by destruct (concatenate_raises_lib _ _ _ Hl) as [? ->].
    + cbn. intros [= <-].
      by destruct (concat_features_raises_lib _ _ _ Hc) as [? ->].
  - destruct (bool_decide (set_type = "test")); [done|]. by intros [= <-].
Qed.

Lemma normalize_raises task labels e :
  normalize_labels task labels = Raise e → e ≠ AssertionError.
Proof.
  unfold normalize_labels, regression_to_multilabel, binary_to_multilabel.
  repeat case_bool_decide; try done;
    intros [? ->]%stack_raises_lib; done.
Qed.

(** X11: a split kind other than ['train'] and ['test'] makes the
    preparation fail with the [ValueError] of the source, whatever the
    dataset and the shape; and the assertion of [AutoMLMetadata] on the
    split kind never fails in a preparation, whatever its arguments. *)
Theorem preparation_checks_split_kind D set_type s r c ch :
  (set_type ≠ "train" → set_type ≠ "test" →
   _prepare_metadata_features_and_labels D set_type s r c ch
   = Raise (ValueError "Wrong set type, should be `train` or `test`!"))
  ∧ _prepare_metadata_features_and_labels D set_type s r c ch
    ≠ Raise AssertionError.
Proof.
  split.
  - intros Htrain Htest. unfold _prepare_metadata_features_and_labels,
      split_features_and_labels.
    by rewrite !bool_decide_eq_false_2.
  - destruct (split_features_and_labels D set_type) as [[f l]|e] eqn:Hsplit.
    2:{ unfold _prepare_metadata_features_and_labels. rewrite Hsplit. cbn.
        intros [= ->]. by eapply split_raises. }
    destruct (normalize_labels (task (info D)) l) as [l'|e] eqn:Hnorm.
    2:{ unfold _prepare_metadata_features_and_labels. rewrite Hsplit. cbn.
        rewrite Hnorm. cbn. intros [= ->]. by eapply normalize_raises. }
    rewrite (prepare_unfold _ _ _ _ _ _ _ _ _ Hsplit Hnorm).
    destruct (resolve_shape f s r c ch) as [[[[s1 r1] c1] ch1]|e] eqn:Hres.
    2:{ cbn. intros [= ->]. unfold resolve_shape in Hres.
        destruct s, r, c, ch; try done.
        destruct (features_shape_at f 1) eqn:Hw; [done|]. cbn in Hres.
        injection Hres as ->. by destruct (shape_at_raises_lib _ _ _ Hw). }
    cbn [mbind result_bind].
    destruct s1, r1, c1, ch1; try done.
    destruct (features_shape_at f 1) eqn:Hw.
    2:{ cbn. intros [= ->]. by destruct (shape_at_raises_lib _ _ _ Hw). }
    cbn [mbind result_bind]. case_bool_decide; [done|].
    destruct (features_shape_at f 0) eqn:Hn.
    2:{ cbn. intros [= ->]. by destruct (shape_at_raises_lib _ _ _ Hn). }
    cbn [mbind result_bind]. unfold np.shape_at.
    by destruct (np.shape l' !! 1).
Qed.

Lemma preparation_checks_split_kind_witness :
  _prepare_metadata_features_and_labels toy.D "valid" None None None None
  = Raise (ValueError "Wrong set type, should be `train` or `test`!").
Proof.
  refine (proj1 (preparation_checks_split_kind toy.D "valid" None None None
                   None) _ _); discriminate.
Defined.

(** ** The metadata of the two-class tasks *)

(** X12: for a regression or binary classification dataset, whose labels
    are one number per example, the preparation of the test split with no
    shape given returns an output dimension of 2, the number of rows of
    the feature matrix as sample count, the default shape, the feature
    matrix unchanged and a label matrix of two columns with one row per
    label. *)
Theorem two_class_tasks_have_two_outputs D (a : np.ndarray) (n w : nat)
    (y : list Q) :
  task (info D) = "regression" ∨ task (info D) = "binary.classification" →
  X_test (data D) = Dense a →
  np.shape a = [n; w] →
  Y_test (data D) = np.vector y →
  ∃ labels',
    _prepare_metadata_features_and_labels D "test" None None None None
    = Ok (mk_metadata (name (info D)) (Z.of_nat n) 2 "test" (Z.of_nat w) 1 1 1,
          Dense a, labels')
    ∧ np.shape labels' = [length y; 2]
    ∧ normalize_labels (task (info D)) (np.vector y) = Ok labels'.
Proof.
  intros Htask Hx Ha Hy.
  assert (Hnorm : ∃ rows, length rows = length y
            ∧ normalize_labels (task (info D)) (np.vector y)
              = Ok (np.matrix 2 rows)).
  { destruct Htask as [->| ->]; eexists; (split; [|first
      [apply regression_to_multilabel_vector
      |apply binary_to_multilabel_vector]]); by rewrite length_fmap. }
  destruct Hnorm as (rows & Hlen & Hnorm).
  exists (np.matrix 2 rows). split_and!; [|by cbn; rewrite Hlen|done].
  assert (Hsplit : split_features_and_labels D "test"
                   = Ok (Dense a, np.vector y)).
  { unfold split_features_and_labels. cbn. by rewrite Hx, Hy. }
  rewrite (prepare_unfold _ _ _ _ _ _ _ _ _ Hsplit Hnorm).
  unfold resolve_shape, features_shape_at, np.shape_at. rewrite Ha. cbn.
  by rewrite bool_decide_eq_false_2 by lia.
Qed.

Lemma two_class_tasks_have_two_outputs_witness :
  ∃ labels',
    _prepare_metadata_features_and_labels toy.D_binary "test" None None None
      None
    = Ok (mk_metadata "toy" 3 2 "test" 2 1 1 1, toy.features3, labels')
    ∧ np.shape labels' = [3; 2]
    ∧ normalize_labels "binary.classification" (np.vector [1; 0; 1]%Q)
      = Ok labels'.
Proof.
  apply (two_class_tasks_have_two_outputs toy.D_binary
           (np.matrix 2 [[1; 2]; [3; 4]; [5; 6]]%Q) 3 2 [1; 0; 1]%Q);
    [by right|reflexivity..].
Defined.

(** ** A run that stops *)

Lemma outcome_raise_eta {A : Type} (m : io A) e :
  outcome m = Raise e → m = IO (trace m) (Raise e).
Proof. intros <-. symmetry. apply io_eta. Qed.

(** X13: the run stops at the first split that cannot be written. When
    writing the test split fails, the effects of the run are the three
    directories and what the test split did before it failed: nothing is
    prepared or written for the train split, the solution file is not
    moved and no info file is copied. When writing the train split
    fails, the test split stays written and the solution file is not
    moved either. *)
Theorem run_stops_at_failing_split FLAGS D input_dir dataset_name output_dir
    max_train max_test shards_train shards_test new_dataset_name mt ft lt e :
  let prepare set_type :=
    _prepare_metadata_features_and_labels D set_type
      (FLAGS_sequence_size FLAGS) (FLAGS_row_count FLAGS)
      (FLAGS_col_count FLAGS) (FLAGS_num_channels FLAGS) in
  let new_name :=
    formatted_name dataset_name max_train max_test new_dataset_name in
  let run :=
    press_a_button_and_give_me_an_AutoDL_dataset FLAGS D input_dir
      dataset_name output_dir max_train max_test shards_train shards_test
      new_dataset_name in
  let write set_type metadata features labels max :=
    convert_vectors_to_sequence_example
      (record_path output_dir new_name dataset_name set_type)
      metadata features labels (info D) max 1 in
  let first_events :=
    [mkdir_if_absent (dataset_dir output_dir new_name);
     mkdir_if_absent (dataset_data_dir output_dir new_name);
     mkdir_if_absent (split_dir output_dir new_name "test")] in
  prepare "test" = Ok (mt, ft, lt) →
  (outcome (write "test" mt ft lt max_test) = Raise e →
   run = IO (first_events ++ trace (write "test" mt ft lt max_test))
            (Raise e))
  ∧ (∀ mn fn ln,
       outcome (write "test" mt ft lt max_test) = Ok tt →
       prepare "train" = Ok (mn, fn, ln) →
       outcome (write "train" mn fn ln max_train) = Raise e →
       run = IO (first_events
                 ++ trace (write "test" mt ft lt max_test)
                 ++ mkdir_if_absent (split_dir output_dir new_name "train")
                    :: trace (write "train" mn fn ln max_train))
                (Raise e)).
Proof.
  intros prepare new_name run write first_events Ht.
  subst prepare new_name run write first_events. cbn beta in *. split.
  - intros He. rewrite run_unfold.
    apply (bind_ok_eq _ _ [_] tt); [done|].
    apply (bind_ok_eq _ _ [_] tt); [done|].
    apply (bind_ok_eq _ _ [_] tt); [done|].
    rewrite Ht, lift_ok_bind. cbn beta iota.
    rewrite (bind_raise_eq _ _ _ _ (outcome_raise_eta _ _ He)).
    done.
  - intros mn fn ln Hc Hn He. rewrite run_unfold.
    apply (bind_ok_eq _ _ [_] tt); [done|].
    apply (bind_ok_eq _ _ [_] tt); [done|].
    apply (bind_ok_eq _ _ [_] tt); [done|].
    rewrite Ht, lift_ok_bind. cbn beta iota.
    apply (bind_ok_eq _ _ _ tt); [by apply outcome_ok_eta|].
    apply (bind_ok_eq _ _ [_] tt); [done|].
    rewrite Hn, lift_ok_bind. cbn beta iota.
    rewrite (bind_raise_eq _ _ _ _ (outcome_raise_eta _ _ He)).
    done.
Qed.

Lemma run_stops_at_failing_split_witness :
  press_a_button_and_give_me_an_AutoDL_dataset toy.two_frames
    toy.D_sparse_zero "in" "toy" "out" None None 1 1 None
  = IO [mkdir_if_absent (dataset_dir "out" "toy");
        mkdir_if_absent (dataset_data_dir "out" "toy");
        mkdir_if_absent (split_dir "out" "toy" "test");
        np_savetxt
          (os_path_join
             (os_path_abspath
                (os_path_dirname (record_path "out" "toy" "toy" "test")))
             "toy.solution")
          toy.labels1 "%.1f";
        TFRecordWriter_open (record_path "out" "toy" "toy" "test");
        TFRecordWriter_close]
       (Raise (NotImplementedError sparse_sequence_message)).
Proof.
  exact (proj1 (run_stops_at_failing_split toy.two_frames toy.D_sparse_zero
                  "in" "toy" "out" None None 1 1 None
                  (mk_metadata "toy" 1 2 "test" 1 1 2 1) toy.sparse1
                  toy.labels1 (NotImplementedError sparse_sequence_message)
                  eq_refl) eq_refl).
Defined.

(** ** A run that ends well *)

(** X14: the effects of a run whose two splits are writable, in order:
    the three directories; the solution file with the test labels; the
    test records, as many as the limit for the test split leaves, and
    their sidecar; the train directory; the train records and their
    sidecar; the move of the solution file and the copy of the info
    files. The run returns the directory and the name of the formatted
    dataset. *)
Theorem successful_run_effects FLAGS D input_dir basename output_dir
    max_train max_test shards_train shards_test new_dataset_name
    mt ft lt mn fn ln (rows_test rows_train : nat) :
  let prepare set_type :=
    _prepare_metadata_features_and_labels D set_type
      (FLAGS_sequence_size FLAGS) (FLAGS_row_count FLAGS)
      (FLAGS_col_count FLAGS) (FLAGS_num_channels FLAGS) in
  prepare "test" = Ok (mt, ft, lt) →
  prepare "train" = Ok (mn, fn, ln) →
  writable (sequence_size mt) ft lt →
  writable (sequence_size mn) fn ln →
  features_shape_at ft 0 = Ok rows_test →
  np.shape_at lt 0 = Ok rows_test →
  features_shape_at fn 0 = Ok rows_train →
  np.shape_at ln 0 = Ok rows_train →
  let new_name :=
    formatted_name basename max_train max_test new_dataset_name in
  let test_path := record_path output_dir new_name basename "test" in
  let train_path := record_path output_dir new_name basename "train" in
  let T := iterations max_test 0 rows_test in
  let N := iterations max_train 0 rows_train in
  ∃ test_examples train_examples,
    length test_examples = T
    ∧ length train_examples = N
    ∧ press_a_button_and_give_me_an_AutoDL_dataset FLAGS D input_dir
        basename output_dir max_train max_test shards_train shards_test
        new_dataset_name
      = IO ([mkdir_if_absent (dataset_dir output_dir new_name);
             mkdir_if_absent (dataset_data_dir output_dir new_name);
             mkdir_if_absent (split_dir output_dir new_name "test");
             np_savetxt
               (os_path_join (os_path_abspath (os_path_dirname test_path))
                  (dataset_name mt +:+ ".solution"))
               lt "%.1f";
             TFRecordWriter_open test_path]
            ++ (TFRecordWriter_write <$> test_examples)
            ++ [TFRecordWriter_close;
                write_text (metadata_path test_path)
                  (sidecar (Z.of_nat T) mt (info D));
                mkdir_if_absent (split_dir output_dir new_name "train");
                TFRecordWriter_open train_path]
            ++ (TFRecordWriter_write <$> train_examples)
            ++ [TFRecordWriter_close;
                write_text (metadata_path train_path)
                  (sidecar (Z.of_nat N) mn (info D))]
            ++ closing_events input_dir basename output_dir new_name)
           (Ok (dataset_dir output_dir new_name, new_name)).
Proof.
  intros prepare Ht Hn Hwt Hwn Hft Hlt Hfn Hln new_name test_path train_path
    T N.
  destruct (prepare_inv _ _ _ _ _ _ _ _ _ Ht) as (_ & _ & _ & _ & _ & Hst).
  destruct (prepare_inv _ _ _ _ _ _ _ _ _ Hn) as (_ & _ & _ & _ & _ & Hsn).
  destruct (convert_writable test_path mt ft lt (info D) 1 rows_test Hwt Hft
              Hlt) as (rt & et & _ & _ & _ & Hlt' & Hct).
  destruct (convert_writable train_path mn fn ln (info D) 1 rows_train Hwn
              Hfn Hln) as (rn & en & _ & _ & _ & Hln' & Hcn).
  cbn zeta in Hct, Hcn.
  destruct (Hct max_test) as (Ect & _). destruct (Hcn max_train) as (Ecn & _).
  pose proof (run_ok FLAGS D input_dir basename output_dir max_train
                max_test shards_train shards_test new_dataset_name
                mt ft lt mn fn ln Ht (f_equal outcome Ect) Hn
                (f_equal outcome Ecn)) as Hrun.
  fold new_name test_path train_path in Hrun.
  exists (take T et), (take N en). split_and!.
  - rewrite length_take. pose proof (iterations_le max_test 0 rows_test).
    subst T. lia.
  - rewrite length_take. pose proof (iterations_le max_train 0 rows_train).
    subst N. lia.
  - rewrite Hrun, Ect, Ecn. cbn [trace]. unfold solution_events.
    rewrite <- Hst, <- Hsn. f_equal.
    rewrite (bool_decide_eq_true_2 ("test" = "test")) by done.
    rewrite (bool_decide_eq_false_2 ("train" = "test")) by done.
    subst T N. repeat (cbn [app]; rewrite <- ?app_assoc). reflexivity.
Qed.

Lemma successful_run_effects_witness :
  ∃ test_examples train_examples : list tf.SequenceExample,
    length test_examples = 3%nat
    ∧ length train_examples = 2%nat
    ∧ outcome (press_a_button_and_give_me_an_AutoDL_dataset toy.no_flags
                 toy.D "in" "toy" "out" None None 1 1 None)
      = Ok (dataset_dir "out" "toy", "toy").
Proof.
  destruct (successful_run_effects toy.no_flags toy.D "in" "toy" "out"
              None None 1 1 None
              (mk_metadata "toy" 3 2 "test" 2 1 1 1) toy.features3
              toy.labels3
              (mk_metadata "toy" 2 2 "train" 2 1 1 1) toy.features2
              toy.labels2 3 2 eq_refl eq_refl (toy_writable3 1 eq_refl)
              toy_writable2 eq_refl eq_refl eq_refl eq_refl)
    as (te & tn & Hte & Htn & Hrun).
  exists te, tn. split_and!; [exact Hte|exact Htn|by rewrite Hrun].
Defined.

(** ** The sidecar text *)

Lemma no_char_app c s t :
  no_char c (s +:+ t) = no_char c s && no_char c t.
Proof.
  unfold no_char. induction s as [|b s IH]; [done|].
  change (String b s +:+ t) with (String b (s +:+ t)).
  cbn [list_ascii_of_string forallb]. by rewrite IH, andb_assoc.
Qed.

(** X15: whatever the number of examples, the metadata and the format of
    the dataset, the text [_write_metadata_textproto] writes holds no
    ["<"]: each of the seven placeholders of the template has been
    replaced, and no value brings one in. *)
Theorem sidecar_has_no_placeholder counter metadata D_info filepath :
  ∃ text,
    trace (_write_metadata_textproto counter metadata D_info filepath)
    = [write_text (metadata_path filepath) text]
    ∧ no_char "<" text = true.
Proof.
  exists (metadata_textproto counter metadata D_info). split; [done|].
  rewrite metadata_textproto_sidecar. unfold sidecar, sidecar_text.
  rewrite !no_char_app, !str_no_bracket.
  by destruct (bool_decide (format D_info = "dense")).
Qed.

(** ** The train split and the validation set *)


